(** * annotator.ui.main: the default user interface module of Annotator

    A shallow embedding of the two copies of [annotator.ui.main] held by the
    repository:

    - [src/ui/main.js], embedded in [Module UiMain]: the copy that creates the
      annotation directly on selection and logs to the console;
    - the copy with the adder and the editor (the unnamed source file),
      embedded in [Module Part000].

    JavaScript values are an inductive type over stdpp's [gmap]; the module's
    [state] object and the calls made on the collaborators (adder, editor,
    highlighter, text selector, viewer, the application's annotation store,
    the console) are threaded through a state-and-exception monad whose state
    holds [state] and the trace of the calls. *)

From Stdlib Require Import ZArith Ascii.
From stdpp Require Import gmap strings list.

Set Warnings "-register-all".

Open Scope string_scope.
Open Scope list_scope.

(** ** JavaScript values *)

Module Js.

(** Plain data: primitives, arrays, objects as finite maps from property
    names, and opaque host objects (DOM elements, events). Numbers are the
    integers: no claim of this development reads a fractional number. *)
Inductive value : Type :=
  | VUndef
  | VNull
  | VBool (b : bool)
  | VNum (n : Z)
  | VStr (s : string)
  | VArr (elems : list value)
  | VObj (props : gmap string value)
  | VHost (id : nat).

Abbreviation jsobj := (gmap string value).

(** [typeof v]. *)
Definition typeof (v : value) : string :=
  match v with
  | VUndef => "undefined"
  | VNull => "object"
  | VBool _ => "boolean"
  | VNum _ => "number"
  | VStr _ => "string"
  | VArr _ | VObj _ | VHost _ => "object"
  end.

(** [v === null]. *)
Definition is_null (v : value) : bool :=
  match v with VNull => true | _ => false end.

(** The test [typeof v === 'undefined' || v === null] both files use. *)
Definition unset (v : value) : bool :=
  String.eqb (typeof v) "undefined" || is_null v.

(** ToBoolean. *)
Definition truthy (v : value) : bool :=
  match v with
  | VUndef | VNull => false
  | VBool b => b
  | VNum n => negb (n =? 0)%Z
  | VStr s => negb (String.eqb s "")
  | VArr _ | VObj _ | VHost _ => true
  end.

(** [a || b]. *)
Definition or_else (a b : value) : value := if truthy a then a else b.

(** What a call can throw. [Unmodelled] marks the one thing the value model
    cannot hold: a named property written on an array or a host object. *)
Inductive error : Type := TypeError | Unmodelled.

Inductive res (A : Type) : Type :=
  | Ret (a : A)
  | Throw (e : error).
Arguments Ret {A} a.
Arguments Throw {A} e.

(** [o[k]]: reading a property of [undefined] or [null] throws; a primitive,
    an array or a host object has no own property of the names read here. *)
Definition get_prop (o : value) (k : string) : res value :=
  match o with
  | VUndef | VNull => Throw TypeError
  | VObj p => Ret (default VUndef (p !! k))
  | VBool _ | VNum _ | VStr _ | VArr _ | VHost _ => Ret VUndef
  end.

(** [o[k] = v] under ['use strict']: a write on a primitive throws. *)
Definition set_prop (o : value) (k : string) (v : value) : res value :=
  match o with
  | VObj p => Ret (VObj (<[k := v]> p))
  | VUndef | VNull | VBool _ | VNum _ | VStr _ => Throw TypeError
  | VArr _ | VHost _ => Throw Unmodelled
  end.

(** [delete o[k]]: a primitive, an array or a host object has no such own
    property, so the deletion leaves it as it is. *)
Definition delete_prop (o : value) (k : string) : res value :=
  match o with
  | VObj p => Ret (VObj (delete k p))
  | VUndef | VNull => Throw TypeError
  | VBool _ | VNum _ | VStr _ | VArr _ | VHost _ => Ret o
  end.

(** [String.prototype.trim] on byte strings: strips the ASCII white space and
    line terminators (TAB, LF, VT, FF, CR, SP) at both ends. *)
Definition is_space (c : ascii) : bool :=
  let n := nat_of_ascii c in
  Nat.eqb n 9 || Nat.eqb n 10 || Nat.eqb n 11 || Nat.eqb n 12
  || Nat.eqb n 13 || Nat.eqb n 32.

Fixpoint trim_start (s : string) : string :=
  match s with
  | String c s' => if is_space c then trim_start s' else s
  | EmptyString => EmptyString
  end.

Definition trim (s : string) : string :=
  String.rev (trim_start (String.rev (trim_start s))).

(** *** State and exceptions *)

(** A computation over a state [S] that returns or throws; the state it
    leaves is kept in both cases (what was written before a throw stays
    written). *)
Definition ST (S A : Type) : Type := S -> res A * S.

Definition ret {S A} (a : A) : ST S A := fun s => (Ret a, s).

Definition throw {S A} (e : error) : ST S A := fun s => (Throw e, s).

Definition bind {S A B} (c : ST S A) (k : A -> ST S B) : ST S B :=
  fun s => match c s with
           | (Ret a, s') => k a s'
           | (Throw e, s') => (Throw e, s')
           end.

(** A pure call that may throw, run inside a computation. *)
Definition lift {S A} (r : res A) : ST S A := fun s => (r, s).

Definition get {S} : ST S S := fun s => (Ret s, s).

Definition put {S} (s : S) : ST S unit := fun _ => (Ret tt, s).

End Js.

Export Js.

Notation "x <- c ;; k" := (bind c (fun x => k))
  (at level 100, c at next level, right associativity).
Notation "c ;;; k" := (bind c (fun _ => k))
  (at level 100, right associativity).


(** ** The collaborators of the module *)

Module Ui.

(** *** The application and its policies *)

(** What [app.registry.getUtility] hands out: an identity policy ([who]), an
    authorization policy ([permits], [authorizedUserId]), or an object with
    none of these methods. *)
Inductive utility : Type :=
  | IdentityPolicy (who : unit -> value)
  | AuthorizationPolicy (permits : string -> value -> value -> value)
                        (authorizedUserId : value -> value)
  | OtherUtility.

(** [ident.who()]. *)
Definition who (ident : utility) : res value :=
  match ident with
  | IdentityPolicy f => Ret (f tt)
  | _ => Throw TypeError
  end.

(** [authz.permits(action, annotation, user)]. *)
Definition permits (authz : utility) (action : string) (annotation user : value) : res value :=
  match authz with
  | AuthorizationPolicy f _ => Ret (f action annotation user)
  | _ => Throw TypeError
  end.

(** [authz.authorizedUserId(user)]. *)
Definition authorizedUserId (authz : utility) (user : value) : res value :=
  match authz with
  | AuthorizationPolicy _ f => Ret (f user)
  | _ => Throw TypeError
  end.

(** The host application: its registry; the calls on [app.annotations] are
    recorded in the trace. *)
Record App : Type := { getUtility : string -> utility }.

(** A selected range of the range collaborator: [r.text()] and
    [r.serialize(contextEl, ignoreSelector)]. *)
Record Range : Type := {
  range_text : unit -> string;
  range_serialize : value -> string -> value;
}.

(** *** The function expressions handed to the collaborators

    Each constructor stands for one function expression of the sources and
    carries the variables it closes over ([state] is the module's state, held
    by the world below). *)

(** [onSelection]: [src/ui/main.js] l.93 closes over [makeAnnotation] (its
    context element) and [app]; the other file's (l.176) over [makeAnnotation]
    alone. *)
Inductive selection_handler : Type :=
  | fn_onSelection_create (contextEl : value) (app : App)
  | fn_onSelection_adder (contextEl : value).

(** [onCreate] of the adder, [onEdit] and [onDelete] of the viewer. *)
Inductive annotation_handler : Type :=
  | fn_onCreate (app : App)
  | fn_onEdit (app : App)
  | fn_onDelete (app : App).

(** [permitEdit] and [permitDelete] of the viewer. *)
Inductive permission_query : Type :=
  | fn_permitEdit (authz ident : utility)
  | fn_permitDelete (authz ident : utility).

(** The callbacks of an editor field, made by [createLoadCallback(action)]
    and [createSubmitCallback(action)]. *)
Inductive load_callback : Type :=
  | fn_loadCallback (action : string) (ident authz : utility).

Inductive submit_callback : Type :=
  | fn_submitCallback (action : string) (ident authz : utility).

(** *** The collaborator instances, by what they were constructed with *)

Record Adder : Type := { adder_onCreate : annotation_handler }.

Record Editor : Type := { editor_extensions : value }.

Record Highlighter : Type := { highlighter_element : value }.

Record TextSelector : Type := {
  textselector_element : value;
  textselector_onSelection : selection_handler;
}.

Record Viewer : Type := {
  viewer_onEdit : annotation_handler;
  viewer_onDelete : annotation_handler;
  viewer_permitEdit : permission_query;
  viewer_permitDelete : permission_query;
  viewer_autoViewHighlights : value;
  viewer_extensions : value;
}.

(** The argument of [editor.addField]. *)
Record FieldSpec : Type := {
  field_type : string;
  field_label : string;
  field_load : load_callback;
  field_submit : submit_callback;
}.

(** The checkbox field a callback is handed: whether the field is shown and
    whether its input is checked. *)
Record Field : Type := { shown : bool; checked : bool }.

(** *** The trace: every call that leaves the module *)

Inductive event : Type :=
  | console_log (args : list value)
  | annotations_create (app : App) (annotation : value)
  | annotations_update (app : App) (annotation : value)
  | annotations_delete (app : App) (annotation : value)
  | adder_attach (a : Adder)
  | adder_load (a : Adder) (annotation position : value)
  | adder_hide (a : Adder)
  | adder_destroy (a : Adder)
  | editor_attach (e : Editor)
  | editor_addField (e : Editor) (f : FieldSpec)
  | editor_load (e : Editor) (annotation position : value)
  | editor_destroy (e : Editor)
  | highlighter_drawAll (h : Highlighter) (anns : value)
  | highlighter_draw (h : Highlighter) (ann : value)
  | highlighter_undraw (h : Highlighter) (ann : value)
  | highlighter_redraw (h : Highlighter) (ann : value)
  | highlighter_destroy (h : Highlighter)
  | textselector_destroy (t : TextSelector)
  | viewer_attach (v : Viewer)
  | viewer_destroy (v : Viewer)
  | dynamic_style_remove.

(** *** The module's [state] object and the world *)

(** The [state] object of [main]: [interactionPoint] and one field per
    collaborator, [None] while the field is not set ([undefined]). *)
Record state : Type := {
  interactionPoint : value;
  adder : option Adder;
  editor : option Editor;
  highlighter : option Highlighter;
  textselector : option TextSelector;
  viewer : option Viewer;
}.

Record world : Type := { st : state; trace : list event }.

Definition M (A : Type) : Type := ST world A.

(** [var state = { interactionPoint: null }]. *)
Definition fresh_state : state :=
  {| interactionPoint := VNull; adder := None; editor := None;
     highlighter := None; textselector := None; viewer := None |}.

Definition with_interactionPoint (v : value) (s : state) : state :=
  {| interactionPoint := v; adder := adder s; editor := editor s;
     highlighter := highlighter s; textselector := textselector s;
     viewer := viewer s |}.

Definition with_adder (a : Adder) (s : state) : state :=
  {| interactionPoint := interactionPoint s; adder := Some a; editor := editor s;
     highlighter := highlighter s; textselector := textselector s;
     viewer := viewer s |}.

Definition with_editor (e : Editor) (s : state) : state :=
  {| interactionPoint := interactionPoint s; adder := adder s; editor := Some e;
     highlighter := highlighter s; textselector := textselector s;
     viewer := viewer s |}.

Definition with_highlighter (h : Highlighter) (s : state) : state :=
  {| interactionPoint := interactionPoint s; adder := adder s; editor := editor s;
     highlighter := Some h; textselector := textselector s;
     viewer := viewer s |}.

Definition with_textselector (t : TextSelector) (s : state) : state :=
  {| interactionPoint := interactionPoint s; adder := adder s; editor := editor s;
     highlighter := highlighter s; textselector := Some t;
     viewer := viewer s |}.

Definition with_viewer (v : Viewer) (s : state) : state :=
  {| interactionPoint := interactionPoint s; adder := adder s; editor := editor s;
     highlighter := highlighter s; textselector := textselector s;
     viewer := Some v |}.

(** [state.f = ...]. *)
Definition assign (f : state -> state) : M unit :=
  fun w => (Ret tt, {| st := f (st w); trace := trace w |}).

(** [state.interactionPoint], and [state.f] as the receiver of a method call:
    a field that is not set throws. *)
Definition read {X} (f : state -> X) : M X := fun w => (Ret (f (st w)), w).

Definition receiver {X} (f : state -> option X) : M X :=
  fun w => match f (st w) with
           | Some x => (Ret x, w)
           | None => (Throw TypeError, w)
           end.

(** A call that leaves the module. *)
Definition emit (e : event) : M unit :=
  fun w => (Ret tt, {| st := st w; trace := trace w ++ [e] |}).

(** *** Deferred results *)

(** How the user leaves the editor, and how a deferred result settles. A
    deferred is read as its settlement under each way the editing may end. *)
Inductive editing : Type := Completed | Cancelled.

Inductive settlement : Type := Resolved | Rejected.

Definition promise : Type := editing -> settlement.

(** [Promise.resolve()]. *)
Definition Promise_resolve : promise := fun _ => Resolved.

(** Modelled from the spec: [Editor#load] of [./editor], which is not among
    the sources. It returns a deferred that is resolved if editing completes
    and rejected if editing is cancelled. *)
Definition Editor_load_result : promise :=
  fun outcome => match outcome with
                 | Completed => Resolved
                 | Cancelled => Rejected
                 end.

(** *** What the module takes from [../util] and the page *)

Record Host : Type := {
  document_body : value;
  gettext : string -> string;
  mousePosition : value -> value;
  css : Viewer -> list string -> value;
}.

(** A member of the object [main] returns. *)
Inductive member : Type :=
  | method_app (f : App -> M unit)
  | method_unit (f : M unit)
  | method_ann (f : value -> M unit)
  | method_deferred (f : value -> M promise).

(** The own property [k] of an object, [undefined] when absent. *)
Definition prop (o : jsobj) (k : string) : value := default VUndef (o !! k).

End Ui.

Export Ui.

(** ** [src/ui/main.js] *)

Module UiMain.

Section WithHost.

Context (host : Host).

(** The [for] loop of [annotationFactory] (l.20-26) from index [i] on,
    [ranges] being what is left of the array and [text], [serializedRanges]
    the two accumulators. *)
Fixpoint annotationFactory_loop (contextEl : value) (ignoreSelector : string)
    (ranges : list Range) (text : list string) (serializedRanges : list value)
    : M (list string * list value) :=
  match ranges with
  | [] => ret (text, serializedRanges)
  | r :: ranges' =>
      let text := text ++ [trim (range_text r tt)] in
      let serializedRange := range_serialize r contextEl ignoreSelector in
      emit (console_log [VStr "serializedRange"; serializedRange]) ;;;
      annotationFactory_loop contextEl ignoreSelector ranges' text
        (serializedRanges ++ [serializedRange])
  end.

(** [annotationFactory(contextEl, ignoreSelector)(ranges)] (l.15-32). *)
Definition annotationFactory (contextEl : value) (ignoreSelector : string)
    (ranges : list Range) : M value :=
  acc <- annotationFactory_loop contextEl ignoreSelector ranges [] [] ;;
  ret (VObj {[ "ranges" := VArr (snd acc) ]}).

(** [removeDynamicStyle()] (l.35-37). *)
Definition removeDynamicStyle : M unit := emit dynamic_style_remove.

(** The first statements of [main] (l.71-76): the options object as [main]
    leaves it. *)
Definition main_options (options : value) : res jsobj :=
  let options := if unset options then VObj ∅ else options in
  match options with
  | VObj o =>
      let o := <[ "element" := or_else (prop o "element") (document_body host) ]> o in
      let o := <[ "viewerExtensions" := or_else (prop o "viewerExtensions") (VArr []) ]> o in
      Ret o
  | VArr _ | VHost _ => Throw Unmodelled
  | _ => Throw TypeError
  end.

(** [onSelection] of the text selector (l.93-100);
    [makeAnnotation = annotationFactory(options.element, '.annotator-hl')]. *)
Definition onSelection (contextEl : value) (app : App)
    (ranges : list Range) (event : value) : M unit :=
  if (0 <? length ranges)%nat then
    annotation <- annotationFactory contextEl ".annotator-hl" ranges ;;
    emit (console_log [VStr "new annotation!"; annotation]) ;;;
    assign (with_interactionPoint (mousePosition host event)) ;;;
    emit (annotations_create app annotation)
  else ret tt.

(** [onEdit] (l.104-110) and [onDelete] (l.111-113) of the viewer. *)
Definition onEdit (app : App) (ann : value) : M unit :=
  v <- receiver viewer ;;
  assign (with_interactionPoint (css host v ["top"; "left"])) ;;;
  emit (annotations_update app ann).

Definition onDelete (app : App) (ann : value) : M unit :=
  emit (annotations_delete app ann).

(** [permitEdit] (l.114-116) and [permitDelete] (l.117-119). *)
Definition permitEdit (authz ident : utility) (ann : value) : res value :=
  match who ident with
  | Ret u => permits authz "update" ann u
  | Throw e => Throw e
  end.

Definition permitDelete (authz ident : utility) (ann : value) : res value :=
  match who ident with
  | Ret u => permits authz "delete" ann u
  | Throw e => Throw e
  end.

(** [start(app)] (l.86-124). *)
Definition start (options : jsobj) (app : App) : M unit :=
  let ident := getUtility app "identityPolicy" in
  let authz := getUtility app "authorizationPolicy" in
  assign (with_highlighter {| highlighter_element := prop options "element" |}) ;;;
  assign (with_textselector
    {| textselector_element := prop options "element";
       textselector_onSelection := fn_onSelection_create (prop options "element") app |}) ;;;
  assign (with_viewer
    {| viewer_onEdit := fn_onEdit app;
       viewer_onDelete := fn_onDelete app;
       viewer_permitEdit := fn_permitEdit authz ident;
       viewer_permitDelete := fn_permitDelete authz ident;
       viewer_autoViewHighlights := prop options "element";
       viewer_extensions := prop options "viewerExtensions" |}) ;;;
  v <- receiver viewer ;;
  emit (viewer_attach v).

(** [destroy()] (l.129-135). *)
Definition destroy : M unit :=
  e <- receiver editor ;; emit (editor_destroy e) ;;;
  h <- receiver highlighter ;; emit (highlighter_destroy h) ;;;
  t <- receiver textselector ;; emit (textselector_destroy t) ;;;
  v <- receiver viewer ;; emit (viewer_destroy v) ;;;
  removeDynamicStyle.

(** The four rendering callbacks (l.137-140). *)
Definition annotationsLoaded (anns : value) : M unit :=
  h <- receiver highlighter ;; emit (highlighter_drawAll h anns).

Definition annotationCreated (ann : value) : M unit :=
  h <- receiver highlighter ;; emit (highlighter_draw h ann).

Definition annotationDeleted (ann : value) : M unit :=
  h <- receiver highlighter ;; emit (highlighter_undraw h ann).

Definition annotationUpdated (ann : value) : M unit :=
  h <- receiver highlighter ;; emit (highlighter_redraw h ann).

(** [beforeAnnotationCreated] (l.142-149) and [beforeAnnotationUpdated]
    (l.151-154): [return Promise.resolve()], the call of [state.editor.load]
    being commented out. *)
Definition beforeAnnotationCreated (annotation : value) : M promise :=
  ret Promise_resolve.

Definition beforeAnnotationUpdated (annotation : value) : M promise :=
  ret Promise_resolve.

(** [main(options)] (l.70-156): normalises the options, makes a fresh [state]
    and returns the module object, its members in the order of the source. *)
Definition main (options : value) : M (list (string * member)) :=
  options <- lift (main_options options) ;;
  w <- get ;;
  put {| st := fresh_state; trace := trace w |} ;;;
  ret [ ("start", method_app (start options));
        ("destroy", method_unit destroy);
        ("annotationsLoaded", method_ann annotationsLoaded);
        ("annotationCreated", method_ann annotationCreated);
        ("annotationDeleted", method_ann annotationDeleted);
        ("annotationUpdated", method_ann annotationUpdated);
        ("beforeAnnotationCreated", method_deferred beforeAnnotationCreated);
        ("beforeAnnotationUpdated", method_deferred beforeAnnotationUpdated) ].

End WithHost.

End UiMain.

(** ** The copy with the adder and the editor (the unnamed source file) *)

Module Part000.

Section WithHost.

Context (host : Host).

(** The [for] loop of [annotationFactory] (l.21-25), as in [UiMain] but
    without the console. *)
Fixpoint annotationFactory_loop (contextEl : value) (ignoreSelector : string)
    (ranges : list Range) (text : list string) (serializedRanges : list value)
    : list string * list value :=
  match ranges with
  | [] => (text, serializedRanges)
  | r :: ranges' =>
      let text := text ++ [trim (range_text r tt)] in
      annotationFactory_loop contextEl ignoreSelector ranges' text
        (serializedRanges ++ [range_serialize r contextEl ignoreSelector])
  end.

(** [annotationFactory(contextEl, ignoreSelector)(ranges)] (l.16-31). *)
Definition annotationFactory (contextEl : value) (ignoreSelector : string)
    (ranges : list Range) : value :=
  let acc := annotationFactory_loop contextEl ignoreSelector ranges [] [] in
  VObj {[ "ranges" := VArr (snd acc) ]}.

(** [removeDynamicStyle()] (l.34-36). *)
Definition removeDynamicStyle : M unit := emit dynamic_style_remove.

(** *** [addPermissionsCheckboxes] (l.39-105) *)

Definition show (f : Field) : Field := {| shown := true; checked := checked f |}.
Definition hide (f : Field) : Field := {| shown := false; checked := checked f |}.
Definition set_checked (b : bool) (f : Field) : Field :=
  {| shown := shown f; checked := b |}.

Definition update {S} (f : S -> S) : ST S unit := fun s => (Ret tt, f s).

(** [loadCallback(field, annotation)] made by [createLoadCallback(action)]
    (l.40-64), over the field it shows, hides and checks. *)
Definition loadCallback (action : string) (ident authz : utility)
    (annotation : value) : ST Field unit :=
  update show ;;;
  u <- lift (who ident) ;;
  (if unset u then update hide else ret tt) ;;;
  admin <- lift (permits authz "admin" annotation u) ;;
  (if negb (truthy admin) then update hide else ret tt) ;;;
  anyone <- lift (permits authz action annotation VNull) ;;
  if truthy anyone then update (set_checked true) else update (set_checked false).

(** A write through [annotation.permissions]: the object held under
    [permissions] is changed in place. *)
Definition in_permissions (f : value -> res value) : ST value unit :=
  annotation <- get ;;
  permissions <- lift (get_prop annotation "permissions") ;;
  permissions <- lift (f permissions) ;;
  annotation <- lift (set_prop annotation "permissions" permissions) ;;
  put annotation.

(** [submitCallback(field, annotation)] made by [createSubmitCallback(action)]
    (l.66-90), over the annotation object it writes; [checked field] is
    [util.$(field).find('input').is(':checked')]. *)
Definition submitCallback (action : string) (ident authz : utility)
    (field : Field) : ST value unit :=
  u <- lift (who ident) ;;
  if unset u then ret tt
  else
    annotation <- get ;;
    permissions <- lift (get_prop annotation "permissions") ;;
    (if negb (truthy permissions)
     then annotation <- lift (set_prop annotation "permissions" (VObj ∅)) ;;
          put annotation
     else ret tt) ;;;
    if checked field
    then in_permissions (fun permissions => delete_prop permissions action)
    else in_permissions (fun permissions =>
           match authorizedUserId authz u with
           | Ret id => set_prop permissions action (VArr [id])
           | Throw e => Throw e
           end).

Definition addPermissionsCheckboxes (editor : Editor) (ident authz : utility) : M unit :=
  emit (editor_addField editor
    {| field_type := "checkbox";
       field_label := gettext host "Allow anyone to <strong>view</strong> this annotation";
       field_load := fn_loadCallback "read" ident authz;
       field_submit := fn_submitCallback "read" ident authz |}) ;;;
  emit (editor_addField editor
    {| field_type := "checkbox";
       field_label := gettext host "Allow anyone to <strong>edit</strong> this annotation";
       field_load := fn_loadCallback "update" ident authz;
       field_submit := fn_submitCallback "update" ident authz |}).

(** *** [main] (l.138-239) *)

(** The first statements of [main] (l.139-145). *)
Definition main_options (options : value) : res jsobj :=
  let options := if unset options then VObj ∅ else options in
  match options with
  | VObj o =>
      let o := <[ "element" := or_else (prop o "element") (document_body host) ]> o in
      let o := <[ "editorExtensions" := or_else (prop o "editorExtensions") (VArr []) ]> o in
      let o := <[ "viewerExtensions" := or_else (prop o "viewerExtensions") (VArr []) ]> o in
      Ret o
  | VArr _ | VHost _ => Throw Unmodelled
  | _ => Throw TypeError
  end.

(** [onCreate] of the adder (l.160-162). *)
Definition onCreate (app : App) (ann : value) : M unit :=
  emit (annotations_create app ann).

(** [onSelection] of the text selector (l.176-184). *)
Definition onSelection (contextEl : value)
    (ranges : list Range) (event : value) : M unit :=
  if (0 <? length ranges)%nat then
    let annotation := annotationFactory contextEl ".annotator-hl" ranges in
    assign (with_interactionPoint (mousePosition host event)) ;;;
    a <- receiver adder ;;
    position <- read interactionPoint ;;
    emit (adder_load a annotation position)
  else
    a <- receiver adder ;;
    emit (adder_hide a).

(** [onEdit] (l.188-194) and [onDelete] (l.195-197) of the viewer. *)
Definition onEdit (app : App) (ann : value) : M unit :=
  v <- receiver viewer ;;
  assign (with_interactionPoint (css host v ["top"; "left"])) ;;;
  emit (annotations_update app ann).

Definition onDelete (app : App) (ann : value) : M unit :=
  emit (annotations_delete app ann).

(** [permitEdit] (l.198-200) and [permitDelete] (l.201-203). *)
Definition permitEdit (authz ident : utility) (ann : value) : res value :=
  match who ident with
  | Ret u => permits authz "update" ann u
  | Throw e => Throw e
  end.

Definition permitDelete (authz ident : utility) (ann : value) : res value :=
  match who ident with
  | Ret u => permits authz "delete" ann u
  | Throw e => Throw e
  end.

(** [start(app)] (l.155-208). *)
Definition start (options : jsobj) (app : App) : M unit :=
  let ident := getUtility app "identityPolicy" in
  let authz := getUtility app "authorizationPolicy" in
  assign (with_adder {| adder_onCreate := fn_onCreate app |}) ;;;
  a <- receiver adder ;; emit (adder_attach a) ;;;
  assign (with_editor {| editor_extensions := prop options "editorExtensions" |}) ;;;
  e <- receiver editor ;; emit (editor_attach e) ;;;
  e <- receiver editor ;; addPermissionsCheckboxes e ident authz ;;;
  assign (with_highlighter {| highlighter_element := prop options "element" |}) ;;;
  assign (with_textselector
    {| textselector_element := prop options "element";
       textselector_onSelection := fn_onSelection_adder (prop options "element") |}) ;;;
  assign (with_viewer
    {| viewer_onEdit := fn_onEdit app;
       viewer_onDelete := fn_onDelete app;
       viewer_permitEdit := fn_permitEdit authz ident;
       viewer_permitDelete := fn_permitDelete authz ident;
       viewer_autoViewHighlights := prop options "element";
       viewer_extensions := prop options "viewerExtensions" |}) ;;;
  v <- receiver viewer ;;
  emit (viewer_attach v).

(** [destroy()] (l.213-220). *)
Definition destroy : M unit :=
  a <- receiver adder ;; emit (adder_destroy a) ;;;
  e <- receiver editor ;; emit (editor_destroy e) ;;;
  h <- receiver highlighter ;; emit (highlighter_destroy h) ;;;
  t <- receiver textselector ;; emit (textselector_destroy t) ;;;
  v <- receiver viewer ;; emit (viewer_destroy v) ;;;
  removeDynamicStyle.

(** The four rendering callbacks (l.222-225). *)
Definition annotationsLoaded (anns : value) : M unit :=
  h <- receiver highlighter ;; emit (highlighter_drawAll h anns).

Definition annotationCreated (ann : value) : M unit :=
  h <- receiver highlighter ;; emit (highlighter_draw h ann).

Definition annotationDeleted (ann : value) : M unit :=
  h <- receiver highlighter ;; emit (highlighter_undraw h ann).

Definition annotationUpdated (ann : value) : M unit :=
  h <- receiver highlighter ;; emit (highlighter_redraw h ann).

(** [beforeAnnotationCreated] (l.227-233) and [beforeAnnotationUpdated]
    (l.235-237): the deferred of [state.editor.load]. *)
Definition beforeAnnotationCreated (annotation : value) : M promise :=
  e <- receiver editor ;;
  position <- read interactionPoint ;;
  emit (editor_load e annotation position) ;;;
  ret Editor_load_result.

Definition beforeAnnotationUpdated (annotation : value) : M promise :=
  e <- receiver editor ;;
  position <- read interactionPoint ;;
  emit (editor_load e annotation position) ;;;
  ret Editor_load_result.

(** [main(options)]. *)
Definition main (options : value) : M (list (string * member)) :=
  options <- lift (main_options options) ;;
  w <- get ;;
  put {| st := fresh_state; trace := trace w |} ;;;
  ret [ ("start", method_app (start options));
        ("destroy", method_unit destroy);
        ("annotationsLoaded", method_ann annotationsLoaded);
        ("annotationCreated", method_ann annotationCreated);
        ("annotationDeleted", method_ann annotationDeleted);
        ("annotationUpdated", method_ann annotationUpdated);
        ("beforeAnnotationCreated", method_deferred beforeAnnotationCreated);
        ("beforeAnnotationUpdated", method_deferred beforeAnnotationUpdated) ].

End WithHost.

End Part000.

(** ** Calling what was handed to the collaborators *)

Section Calls.

Context (host : Host).

(** The collaborator fires a selection: the body of the [onSelection] it was
    given runs. *)
Definition call_selection (h : selection_handler)
    (ranges : list Range) (event : value) : M unit :=
  match h with
  | fn_onSelection_create contextEl app => UiMain.onSelection host contextEl app ranges event
  | fn_onSelection_adder contextEl => Part000.onSelection host contextEl ranges event
  end.

(** [onEdit] and [onDelete] read the same in both files. *)
Definition call_handler (h : annotation_handler) (ann : value) : M unit :=
  match h with
  | fn_onCreate app => Part000.onCreate app ann
  | fn_onEdit app => UiMain.onEdit host app ann
  | fn_onDelete app => UiMain.onDelete app ann
  end.

(** [permitEdit] and [permitDelete] read the same in both files. *)
Definition call_query (q : permission_query) (ann : value) : res value :=
  match q with
  | fn_permitEdit authz ident => UiMain.permitEdit authz ident ann
  | fn_permitDelete authz ident => UiMain.permitDelete authz ident ann
  end.

Definition call_load (c : load_callback) (annotation : value) : ST Field unit :=
  match c with
  | fn_loadCallback action ident authz => Part000.loadCallback action ident authz annotation
  end.

Definition call_submit (c : submit_callback) (field : Field) : ST value unit :=
  match c with
  | fn_submitCallback action ident authz => Part000.submitCallback action ident authz field
  end.

End Calls.

(** [obj[k]] on the object [main] returns. *)
Fixpoint member_of (k : string) (obj : list (string * member)) : option member :=
  match obj with
  | [] => None
  | (k', m) :: obj' => if String.eqb k k' then Some m else member_of k obj'
  end.

(** The handler the text selector of a world was constructed with, and the
    permission queries of its viewer. *)
Definition installed_onSelection (w : world) : option selection_handler :=
  textselector_onSelection <$> textselector (st w).

Definition installed_permitEdit (w : world) : option permission_query :=
  viewer_permitEdit <$> viewer (st w).

Definition installed_permitDelete (w : world) : option permission_query :=
  viewer_permitDelete <$> viewer (st w).

(** A world in which [main] has just run: a fresh [state], any trace. *)
Definition after_main (tr : list event) : world :=
  {| st := fresh_state; trace := tr |}.

(** What a computation returns and the world it leaves. *)
Definition result {S A} (r : res A * S) : res A := fst r.
Definition final {S A} (r : res A * S) : S := snd r.

(** The serialized ranges of a selection in selection order, the trimmed
    texts the factory collects, and what [src/ui/main.js] logs on the way. *)
Definition serialized (contextEl : value) (ignoreSelector : string)
    (ranges : list Range) : list value :=
  map (fun r => range_serialize r contextEl ignoreSelector) ranges.

Definition trimmed (ranges : list Range) : list string :=
  map (fun r => trim (range_text r tt)) ranges.

Definition logged (contextEl : value) (ignoreSelector : string)
    (ranges : list Range) : list event :=
  map (fun r => console_log [VStr "serializedRange"; range_serialize r contextEl ignoreSelector])
      ranges.

(** The value the caller gave for option [k], if any: [None] when the
    options are [undefined], [null] or an object lacking the key. *)
Definition given (options : value) (k : string) : option value :=
  match options with
  | VObj o => o !! k
  | _ => None
  end.

(** The options [main] documents: absent, [null], or an object. *)
Definition is_options (options : value) : Prop :=
  options = VUndef \/ options = VNull \/ exists o, options = VObj o.

(** The mapping an annotation holds under [permissions]: the empty one when
    the key is missing (or holds a falsy value), for [submitCallback] then
    starts from [{}]. *)
Definition held_permissions (annotation : jsobj) (p : jsobj) : Prop :=
  (truthy (prop annotation "permissions") = false /\ p = ∅)
  \/ prop annotation "permissions" = VObj p.

(** *** Sample data

    A page, an application and two ranges on which the statements below are
    run. *)
Definition sample_host : Host :=
  {| document_body := VHost 0;
     gettext := fun s => s;
     mousePosition := fun _ => VObj {[ "top" := VNum 10; "left" := VNum 20 ]};
     css := fun _ _ => VObj {[ "top" := VNum 30; "left" := VNum 40 ]} |}.

(** The policies of the sample application: the current user is alice, and
    an action is permitted when the annotation lists no users for it. *)
Definition sample_permits (action : string) (annotation user : value) : value :=
  match annotation with
  | VObj o =>
      match prop o "permissions" with
      | VObj p => VBool (bool_decide (p !! action = None))
      | _ => VBool true
      end
  | _ => VBool true
  end.

Definition sample_app : App :=
  {| getUtility := fun k =>
       if String.eqb k "identityPolicy" then IdentityPolicy (fun _ => VStr "alice")
       else if String.eqb k "authorizationPolicy"
            then AuthorizationPolicy sample_permits (fun u => u)
            else OtherUtility |}.

Definition sample_range (offset : Z) (text : string) : Range :=
  {| range_text := fun _ => text;
     range_serialize := fun contextEl ignoreSelector =>
       VObj {[ "start" := VStr "/p[1]"; "startOffset" := VNum offset ]} |}.

Definition sample_ranges : list Range :=
  [sample_range 0 " first "; sample_range 7 "second"].

(** *** A run of selections

    The text selector fires its handler once per selection the user makes:
    the handler is run on each (ranges, event) pair in turn. *)
Fixpoint fire_selections (host : Host) (h : selection_handler)
    (selections : list (list Range * value)) : M unit :=
  match selections with
  | [] => ret tt
  | (ranges, event) :: rest =>
      call_selection host h ranges event ;;; fire_selections host h rest
  end.

(** The annotations handed to [app.annotations.create] along a trace. *)
Definition created (tr : list event) : list value :=
  omap (fun e => match e with annotations_create _ a => Some a | _ => None end) tr.

(** The selections that carry at least one range, and the annotation the
    factory makes of one. *)
Definition nonempty (selection : list Range * value) : bool :=
  (0 <? length (fst selection))%nat.

Definition annotation_of (contextEl : value) (selection : list Range * value) : value :=
  VObj {[ "ranges" := VArr (serialized contextEl ".annotator-hl" (fst selection)) ]}.

(** The position of the last selection that carried a range, [point] when
    there was none. *)
Fixpoint last_position (host : Host) (point : value)
    (selections : list (list Range * value)) : value :=
  match selections with
  | [] => point
  | selection :: rest =>
      last_position host
        (if nonempty selection then mousePosition host (snd selection) else point) rest
  end.

(** A boolean, a number or a string. *)
Definition primitive (v : value) : bool :=
  match v with
  | VBool _ | VNum _ | VStr _ => true
  | _ => false
  end.

(** ** Proofs *)

(** Running a computation: the operations of the monad are unfolded and the
    projections of the world and of [state] computed; finite maps and strings
    are left as they are written. *)
Ltac run :=
  unfold bind, ret, throw, lift, get, put, emit, assign, read, receiver,
         Part000.update;
  cbn [st trace fst snd result final
       interactionPoint adder editor highlighter textselector viewer
       with_interactionPoint with_adder with_editor with_highlighter
       with_textselector with_viewer fmap option_fmap option_map
       get_prop set_prop delete_prop who permits authorizedUserId].

Example trim_example : trim "  a b
 " = "a b".
Proof. reflexivity. Qed.

Example or_else_example : or_else VUndef (VArr []) = VArr [] /\ or_else (VHost 1) (VHost 0) = VHost 1.
Proof. split; reflexivity. Qed.

Lemma onEdit_same host app ann : Part000.onEdit host app ann = UiMain.onEdit host app ann.
Proof. reflexivity. Qed.

Lemma onDelete_same app ann : Part000.onDelete app ann = UiMain.onDelete app ann.
Proof. reflexivity. Qed.

Lemma permitEdit_same authz ident ann :
  Part000.permitEdit authz ident ann = UiMain.permitEdit authz ident ann.
Proof. reflexivity. Qed.

Lemma permitDelete_same authz ident ann :
  Part000.permitDelete authz ident ann = UiMain.permitDelete authz ident ann.
Proof. reflexivity. Qed.

(** *** The annotation factories *)

Lemma Part000_loop_spec contextEl ignoreSelector ranges :
  forall text sers,
    Part000.annotationFactory_loop contextEl ignoreSelector ranges text sers
    = (text ++ trimmed ranges, sers ++ serialized contextEl ignoreSelector ranges).
Proof.
  induction ranges as [|r ranges IH]; intros text sers; simpl.
  - by rewrite !app_nil_r.
  - rewrite IH. by rewrite <- !app_assoc.
Qed.

Lemma UiMain_loop_spec contextEl ignoreSelector ranges :
  forall text sers w,
    UiMain.annotationFactory_loop contextEl ignoreSelector ranges text sers w
    = (Ret (text ++ trimmed ranges, sers ++ serialized contextEl ignoreSelector ranges),
       {| st := st w; trace := trace w ++ logged contextEl ignoreSelector ranges |}).
Proof.
  induction ranges as [|r ranges IH]; intros text sers w; simpl.
  - run. rewrite !app_nil_r. by destruct w.
  - run. rewrite IH. simpl. by rewrite <- !app_assoc.
Qed.

Lemma Part000_annotationFactory_spec contextEl ignoreSelector ranges :
  Part000.annotationFactory contextEl ignoreSelector ranges
  = VObj {[ "ranges" := VArr (serialized contextEl ignoreSelector ranges) ]}.
Proof. unfold Part000.annotationFactory. by rewrite Part000_loop_spec. Qed.

Lemma UiMain_annotationFactory_spec contextEl ignoreSelector ranges w :
  UiMain.annotationFactory contextEl ignoreSelector ranges w
  = (Ret (VObj {[ "ranges" := VArr (serialized contextEl ignoreSelector ranges) ]}),
     {| st := st w; trace := trace w ++ logged contextEl ignoreSelector ranges |}).
Proof.
  unfold UiMain.annotationFactory, bind. by rewrite UiMain_loop_spec.
Qed.

(** C5: the annotation either factory produces holds exactly one key,
    [ranges]; under it stands the list of the serialized ranges in selection
    order, the i-th entry being the serialization of the i-th range against
    the context element. The trimmed texts collected on the way are no part
    of it. This holds for every list of ranges, the non-empty ones
    included. *)
Theorem annotationFactory_holds_ranges_only contextEl ignoreSelector ranges w :
  exists (o : jsobj) (sers : list value),
    Part000.annotationFactory contextEl ignoreSelector ranges = VObj o
    /\ result (UiMain.annotationFactory contextEl ignoreSelector ranges w) = Ret (VObj o)
    /\ dom o = {[ "ranges" ]}
    /\ o !! "text" = None
    /\ o !! "ranges" = Some (VArr sers)
    /\ length sers = length ranges
    /\ forall i r, ranges !! i = Some r ->
         sers !! i = Some (range_serialize r contextEl ignoreSelector).
Proof.
  exists {[ "ranges" := VArr (serialized contextEl ignoreSelector ranges) ]},
         (serialized contextEl ignoreSelector ranges).
  rewrite Part000_annotationFactory_spec, UiMain_annotationFactory_spec.
  split_and!.
  - reflexivity.
  - reflexivity.
  - apply dom_singleton_L.
  - by apply lookup_singleton_ne.
  - apply lookup_singleton_eq.
  - apply length_map.
  - intros i r Hi. unfold serialized. rewrite list_lookup_fmap, Hi. reflexivity.
Qed.

(** C10: on every context element, ignore selector and list of ranges the
    factory of [src/ui/main.js] returns the annotation the factory of the
    other copy returns; it leaves [state] as it was and adds to the trace one
    console line per range and nothing else. *)
Theorem annotationFactory_copies_agree contextEl ignoreSelector ranges w :
  result (UiMain.annotationFactory contextEl ignoreSelector ranges w)
    = Ret (Part000.annotationFactory contextEl ignoreSelector ranges)
  /\ st (final (UiMain.annotationFactory contextEl ignoreSelector ranges w)) = st w
  /\ trace (final (UiMain.annotationFactory contextEl ignoreSelector ranges w))
     = trace w ++ logged contextEl ignoreSelector ranges.
Proof.
  rewrite Part000_annotationFactory_spec, UiMain_annotationFactory_spec.
  by repeat split.
Qed.

(** *** Selections *)

Lemma UiMain_onSelection_nonempty host contextEl app ranges event w :
  ranges <> [] ->
  UiMain.onSelection host contextEl app ranges event w
  = let annotation := VObj {[ "ranges" := VArr (serialized contextEl ".annotator-hl" ranges) ]} in
    (Ret tt,
     {| st := with_interactionPoint (mousePosition host event) (st w);
        trace := trace w ++ logged contextEl ".annotator-hl" ranges
                   ++ [console_log [VStr "new annotation!"; annotation];
                       annotations_create app annotation] |}).
Proof.
  intros Hne. unfold UiMain.onSelection.
  destruct ranges as [|r ranges]; [done|].
  change (0 <? length (r :: ranges))%nat with true. cbv iota.
  unfold bind at 1. rewrite UiMain_annotationFactory_spec.
  run. by rewrite <- !app_assoc.
Qed.

Lemma Part000_onSelection_nonempty host contextEl ranges event w a :
  ranges <> [] ->
  adder (st w) = Some a ->
  Part000.onSelection host contextEl ranges event w
  = let annotation := VObj {[ "ranges" := VArr (serialized contextEl ".annotator-hl" ranges) ]} in
    (Ret tt,
     {| st := with_interactionPoint (mousePosition host event) (st w);
        trace := trace w ++ [adder_load a annotation (mousePosition host event)] |}).
Proof.
  intros Hne Ha. unfold Part000.onSelection.
  destruct ranges as [|r ranges]; [done|].
  change (0 <? length (r :: ranges))%nat with true. cbv iota zeta.
  rewrite Part000_annotationFactory_spec.
  run. by rewrite Ha.
Qed.

(** C1: the [onSelection] handler [start] installs, run on a non-empty list
    of ranges, builds an annotation whose [ranges] list has as many entries
    as the list delivered: in [src/ui/main.js] it is the annotation passed to
    [app.annotations.create], in the other copy the one loaded into the
    adder that [start] has set. *)
Theorem onSelection_one_entry_per_range host options app w0 ranges event w :
  ranges <> [] ->
  exists sers : list value,
    length sers = length ranges
    /\ (exists h,
          installed_onSelection (final (UiMain.start options app w0)) = Some h
          /\ exists logs,
               call_selection host h ranges event w
               = (Ret tt,
                  {| st := with_interactionPoint (mousePosition host event) (st w);
                     trace := trace w ++ logs
                              ++ [annotations_create app (VObj {[ "ranges" := VArr sers ]})] |}))
    /\ (exists h,
          installed_onSelection (final (Part000.start host options app w0)) = Some h
          /\ is_Some (adder (st (final (Part000.start host options app w0))))
          /\ forall a, adder (st w) = Some a ->
               call_selection host h ranges event w
               = (Ret tt,
                  {| st := with_interactionPoint (mousePosition host event) (st w);
                     trace := trace w
                              ++ [adder_load a (VObj {[ "ranges" := VArr sers ]})
                                    (mousePosition host event)] |})).
Proof.
  intros Hne.
  exists (serialized (prop options "element") ".annotator-hl" ranges).
  split; [apply length_map|]. split.
  - exists (fn_onSelection_create (prop options "element") app).
    split; [reflexivity|]. cbn [call_selection].
    rewrite UiMain_onSelection_nonempty by done. cbv zeta.
    exists (logged (prop options "element") ".annotator-hl" ranges
            ++ [console_log [VStr "new annotation!";
                  VObj {[ "ranges" := VArr (serialized (prop options "element")
                                              ".annotator-hl" ranges) ]}]]).
    by rewrite <- !app_assoc.
  - exists (fn_onSelection_adder (prop options "element")).
    split; [reflexivity|]. split; [by eexists|].
    cbn [call_selection]. intros a Ha.
    by rewrite (Part000_onSelection_nonempty _ _ _ _ _ a).
Qed.

Lemma onSelection_one_entry_per_range_witness :
  exists sers : list value, length sers = 2.
Proof.
  destruct (onSelection_one_entry_per_range sample_host ∅ sample_app
              (after_main []) sample_ranges (VHost 1) (after_main []))
    as (sers & Hlen & _).
  - discriminate.
  - exists sers. exact Hlen.
Defined.

(** C9: run on an empty list of ranges, the [onSelection] handler [start]
    installs builds no annotation and never reaches [app.annotations.create]:
    in [src/ui/main.js] the world is left exactly as it was; in the copy
    with the adder the only call made is [state.adder.hide()], on the adder
    [start] has set. *)
Theorem onSelection_empty_creates_nothing host options app w0 event w :
  (exists h,
     installed_onSelection (final (UiMain.start options app w0)) = Some h
     /\ call_selection host h [] event w = (Ret tt, w))
  /\ (exists h a,
        installed_onSelection (final (Part000.start host options app w0)) = Some h
        /\ adder (st (final (Part000.start host options app w0))) = Some a
        /\ call_selection host h [] event (final (Part000.start host options app w0))
           = (Ret tt,
              {| st := st (final (Part000.start host options app w0));
                 trace := trace (final (Part000.start host options app w0))
                          ++ [adder_hide a] |})
        /\ call_selection host h [] event w
           = match adder (st w) with
             | Some a' => (Ret tt, {| st := st w; trace := trace w ++ [adder_hide a'] |})
             | None => (Throw TypeError, w)
             end).
Proof.
  split.
  - exists (fn_onSelection_create (prop options "element") app).
    split; reflexivity.
  - exists (fn_onSelection_adder (prop options "element")),
           {| adder_onCreate := fn_onCreate app |}.
    split_and!; try reflexivity.
    cbn [call_selection]. unfold Part000.onSelection.
    change (0 <? length [])%nat with false. cbv iota. run.
    by destruct (adder (st w)).
Qed.

(** *** The viewer's permission queries *)

(** C7: [start(app)] takes the identity policy and the authorization policy
    from [app.registry], and the queries it hands to the viewer answer from
    these two alone: [permitEdit(ann)] returns
    [permits('update', ann, who())] and [permitDelete(ann)] returns
    [permits('delete', ann, who())]; so in both copies. *)
Theorem viewer_queries_consult_the_policies host options app w0
    who_f permits_f userid_f ann w1 :
  getUtility app "identityPolicy" = IdentityPolicy who_f ->
  getUtility app "authorizationPolicy" = AuthorizationPolicy permits_f userid_f ->
  w1 = final (UiMain.start options app w0)
  \/ w1 = final (Part000.start host options app w0) ->
  exists permitEdit permitDelete,
    installed_permitEdit w1 = Some permitEdit
    /\ installed_permitDelete w1 = Some permitDelete
    /\ permitEdit = fn_permitEdit (getUtility app "authorizationPolicy")
                                  (getUtility app "identityPolicy")
    /\ permitDelete = fn_permitDelete (getUtility app "authorizationPolicy")
                                      (getUtility app "identityPolicy")
    /\ call_query permitEdit ann = Ret (permits_f "update" ann (who_f tt))
    /\ call_query permitDelete ann = Ret (permits_f "delete" ann (who_f tt)).
Proof.
  intros Hident Hauthz Hw1.
  exists (fn_permitEdit (getUtility app "authorizationPolicy")
                        (getUtility app "identityPolicy")),
         (fn_permitDelete (getUtility app "authorizationPolicy")
                          (getUtility app "identityPolicy")).
  assert (Hq : forall action,
             match who (getUtility app "identityPolicy") with
             | Ret u => permits (getUtility app "authorizationPolicy") action ann u
             | Throw e => Throw e
             end = Ret (permits_f action ann (who_f tt))).
  { intros action. by rewrite Hident, Hauthz. }
  destruct Hw1 as [-> | ->]; split_and!; try reflexivity;
    cbn [call_query]; unfold UiMain.permitEdit, UiMain.permitDelete; apply Hq.
Qed.

Lemma viewer_queries_consult_the_policies_witness :
  exists permitEdit,
    installed_permitEdit (final (UiMain.start ∅ sample_app (after_main []))) = Some permitEdit
    /\ call_query permitEdit (VObj ∅) = Ret (VBool true).
Proof.
  destruct (viewer_queries_consult_the_policies sample_host ∅ sample_app (after_main [])
              (fun _ => VStr "alice") sample_permits (fun u => u) (VObj ∅)
              (final (UiMain.start ∅ sample_app (after_main []))))
    as (pe & pd & Hpe & _ & _ & _ & Hedit & _).
  - reflexivity.
  - reflexivity.
  - left. reflexivity.
  - exists pe. split; [exact Hpe|]. rewrite Hedit. vm_compute. reflexivity.
Defined.

(** *** [main] and the object it returns *)

Lemma UiMain_main_spec host options o w :
  UiMain.main_options host options = Ret o ->
  UiMain.main host options w
  = (Ret [ ("start", method_app (UiMain.start o));
           ("destroy", method_unit UiMain.destroy);
           ("annotationsLoaded", method_ann UiMain.annotationsLoaded);
           ("annotationCreated", method_ann UiMain.annotationCreated);
           ("annotationDeleted", method_ann UiMain.annotationDeleted);
           ("annotationUpdated", method_ann UiMain.annotationUpdated);
           ("beforeAnnotationCreated", method_deferred UiMain.beforeAnnotationCreated);
           ("beforeAnnotationUpdated", method_deferred UiMain.beforeAnnotationUpdated) ],
     after_main (trace w)).
Proof. intros Ho. unfold UiMain.main. run. by rewrite Ho. Qed.

Lemma Part000_main_spec host options o w :
  Part000.main_options host options = Ret o ->
  Part000.main host options w
  = (Ret [ ("start", method_app (Part000.start host o));
           ("destroy", method_unit Part000.destroy);
           ("annotationsLoaded", method_ann Part000.annotationsLoaded);
           ("annotationCreated", method_ann Part000.annotationCreated);
           ("annotationDeleted", method_ann Part000.annotationDeleted);
           ("annotationUpdated", method_ann Part000.annotationUpdated);
           ("beforeAnnotationCreated", method_deferred Part000.beforeAnnotationCreated);
           ("beforeAnnotationUpdated", method_deferred Part000.beforeAnnotationUpdated) ],
     after_main (trace w)).
Proof. intros Ho. unfold Part000.main. run. by rewrite Ho. Qed.

Lemma UiMain_main_throws host options e w :
  UiMain.main_options host options = Throw e ->
  UiMain.main host options w = (Throw e, w).
Proof. intros Ho. unfold UiMain.main. run. by rewrite Ho. Qed.

Lemma Part000_main_throws host options e w :
  Part000.main_options host options = Throw e ->
  Part000.main host options w = (Throw e, w).
Proof. intros Ho. unfold Part000.main. run. by rewrite Ho. Qed.

(** The options [main] is left with when it is called without any. *)
Lemma UiMain_main_options_undefined host :
  UiMain.main_options host VUndef
  = Ret (<[ "viewerExtensions" := VArr [] ]> (<[ "element" := document_body host ]> ∅)).
Proof.
  unfold UiMain.main_options. change (unset VUndef) with true. cbv iota zeta.
  unfold prop. rewrite lookup_insert_ne by discriminate. by rewrite !lookup_empty.
Qed.

Lemma Part000_main_options_undefined host :
  Part000.main_options host VUndef
  = Ret (<[ "viewerExtensions" := VArr [] ]>
           (<[ "editorExtensions" := VArr [] ]>
              (<[ "element" := document_body host ]> ∅))).
Proof.
  unfold Part000.main_options. change (unset VUndef) with true. cbv iota zeta.
  unfold prop. rewrite !lookup_insert_ne by discriminate. by rewrite !lookup_empty.
Qed.

Lemma or_else_missing (o : jsobj) k d : o !! k = None -> or_else (prop o k) d = d.
Proof. intros Hk. unfold prop. by rewrite Hk. Qed.

(** What [main_options] does on the documented options, key by key: a
    missing key gets its default, a key given a truthy value keeps it. *)
Lemma Part000_main_options_defaults host options :
  is_options options ->
  exists o,
    Part000.main_options host options = Ret o
    /\ (given options "element" = None -> o !! "element" = Some (document_body host))
    /\ (given options "editorExtensions" = None -> o !! "editorExtensions" = Some (VArr []))
    /\ (given options "viewerExtensions" = None -> o !! "viewerExtensions" = Some (VArr [])).
Proof.
  intros [-> | [-> | [o ->]]].
  - rewrite Part000_main_options_undefined. eexists; split; [reflexivity|].
    split_and!; intros _; by simplify_map_eq.
  - change (Part000.main_options host VNull) with (Part000.main_options host VUndef).
    rewrite Part000_main_options_undefined. eexists; split; [reflexivity|].
    split_and!; intros _; by simplify_map_eq.
  - unfold Part000.main_options. change (unset (VObj o)) with false. cbv iota zeta.
    eexists; split; [reflexivity|]. cbn [given].
    split_and!; intros Hk.
    + rewrite !lookup_insert_ne by discriminate. rewrite lookup_insert_eq.
      by rewrite or_else_missing.
    + rewrite lookup_insert_ne by discriminate. rewrite lookup_insert_eq.
      rewrite or_else_missing; [done|]. by rewrite lookup_insert_ne.
    + rewrite lookup_insert_eq.
      rewrite or_else_missing; [done|]. by rewrite !lookup_insert_ne.
Qed.

Lemma UiMain_main_options_defaults host options :
  is_options options ->
  exists o,
    UiMain.main_options host options = Ret o
    /\ (given options "element" = None -> o !! "element" = Some (document_body host))
    /\ (given options "viewerExtensions" = None -> o !! "viewerExtensions" = Some (VArr []))
    /\ o !! "editorExtensions" = given options "editorExtensions".
Proof.
  intros [-> | [-> | [o ->]]].
  - rewrite UiMain_main_options_undefined. eexists; split; [reflexivity|].
    split_and!; try intros _; by simplify_map_eq.
  - change (UiMain.main_options host VNull) with (UiMain.main_options host VUndef).
    rewrite UiMain_main_options_undefined. eexists; split; [reflexivity|].
    split_and!; try intros _; by simplify_map_eq.
  - unfold UiMain.main_options. change (unset (VObj o)) with false. cbv iota zeta.
    eexists; split; [reflexivity|]. cbn [given].
    split_and!; [intros Hk | intros Hk |].
    + rewrite !lookup_insert_ne by discriminate. rewrite lookup_insert_eq.
      by rewrite or_else_missing.
    + rewrite lookup_insert_eq.
      rewrite or_else_missing; [done|]. by rewrite !lookup_insert_ne.
    + by rewrite !lookup_insert_ne.
Qed.

(** C4, at the call [main()] of [src/ui/main.js]: the module object is
    returned, [element] is [document.body] and [viewerExtensions] the empty
    list, but [editorExtensions] is left unset, where the other copy makes it
    the empty list. *)
Theorem UiMain_main_leaves_editorExtensions_unset host w :
  exists o obj o',
    UiMain.main_options host VUndef = Ret o
    /\ result (UiMain.main host VUndef w) = Ret obj
    /\ o !! "element" = Some (document_body host)
    /\ o !! "viewerExtensions" = Some (VArr [])
    /\ o !! "editorExtensions" = None
    /\ Part000.main_options host VUndef = Ret o'
    /\ o' !! "editorExtensions" = Some (VArr []).
Proof.
  do 3 eexists.
  split; [apply UiMain_main_options_undefined|].
  split.
  { rewrite (UiMain_main_spec host VUndef _ w (UiMain_main_options_undefined host)).
    reflexivity. }
  split_and!; [by simplify_map_eq .. | apply Part000_main_options_undefined | by simplify_map_eq].
Qed.

(** *** [destroy] *)

(** In the copy with the adder and the editor, [start] sets the five
    collaborators and [destroy] runs to its end on them. *)
Lemma Part000_destroy_after_start host options app tr :
  exists a e h t v,
    let w1 := final (Part000.start host options app (after_main tr)) in
    adder (st w1) = Some a /\ editor (st w1) = Some e
    /\ highlighter (st w1) = Some h /\ textselector (st w1) = Some t
    /\ viewer (st w1) = Some v
    /\ Part000.destroy w1
       = (Ret tt,
          {| st := st w1;
             trace := trace w1 ++ [adder_destroy a; editor_destroy e; highlighter_destroy h;
                                   textselector_destroy t; viewer_destroy v;
                                   dynamic_style_remove] |}).
Proof.
  do 5 eexists. cbv zeta. split_and!; try reflexivity.
  unfold Part000.destroy, Part000.removeDynamicStyle, Part000.start,
         Part000.addPermissionsCheckboxes, after_main.
  run. by rewrite <- !app_assoc.
Qed.

(** C3, in [src/ui/main.js]: [main()] returns the module object; after
    [start(app)], for any [app], the fields [highlighter], [textselector] and
    [viewer] of [state] are set but [editor] is not, and [destroy()] throws a
    [TypeError] on [state.editor.destroy()] before anything is destroyed. *)
Theorem UiMain_destroy_after_start_throws host app w :
  exists obj w0 start destroy,
    UiMain.main host VUndef w = (Ret obj, w0)
    /\ member_of "start" obj = Some (method_app start)
    /\ member_of "destroy" obj = Some (method_unit destroy)
    /\ result (start app w0) = Ret tt
    /\ editor (st (final (start app w0))) = None
    /\ is_Some (highlighter (st (final (start app w0))))
    /\ is_Some (textselector (st (final (start app w0))))
    /\ is_Some (viewer (st (final (start app w0))))
    /\ destroy (final (start app w0)) = (Throw TypeError, final (start app w0)).
Proof.
  do 4 eexists.
  split; [apply UiMain_main_spec, UiMain_main_options_undefined|].
  split; [reflexivity|]. split; [reflexivity|].
  split_and!; try reflexivity; by eexists.
Qed.

(** *** [beforeAnnotationCreated] and [beforeAnnotationUpdated] *)

(** In the copy with the editor, both return the deferred of
    [state.editor.load], which is rejected when the editing is cancelled. *)
Lemma Part000_beforeAnnotation_rejects_on_cancel host options app tr annotation :
  let w1 := final (Part000.start host options app (after_main tr)) in
  exists e p,
    editor (st w1) = Some e
    /\ Part000.beforeAnnotationCreated annotation w1
       = (Ret p, {| st := st w1;
                    trace := trace w1 ++ [editor_load e annotation (interactionPoint (st w1))] |})
    /\ Part000.beforeAnnotationUpdated annotation w1
       = (Ret p, {| st := st w1;
                    trace := trace w1 ++ [editor_load e annotation (interactionPoint (st w1))] |})
    /\ p Cancelled = Rejected
    /\ p Completed = Resolved.
Proof.
  cbv zeta. do 2 eexists. split_and!; reflexivity.
Qed.

(** C2, in [src/ui/main.js]: the deferred that [beforeAnnotationCreated] and
    [beforeAnnotationUpdated] of [main()] return is the one of
    [Promise.resolve()], for every annotation and in every world: it is
    resolved also when the editing is cancelled, and the editor is not
    called. *)
Theorem UiMain_beforeAnnotation_never_rejects host w :
  exists obj w0 created updated,
    UiMain.main host VUndef w = (Ret obj, w0)
    /\ member_of "beforeAnnotationCreated" obj = Some (method_deferred created)
    /\ member_of "beforeAnnotationUpdated" obj = Some (method_deferred updated)
    /\ forall annotation w1,
         exists p,
           created annotation w1 = (Ret p, w1)
           /\ updated annotation w1 = (Ret p, w1)
           /\ p Cancelled = Resolved
           /\ forall outcome, p outcome <> Rejected.
Proof.
  do 4 eexists.
  split; [apply UiMain_main_spec, UiMain_main_options_undefined|].
  split; [reflexivity|]. split; [reflexivity|].
  intros annotation w1. exists Promise_resolve.
  split_and!; try reflexivity. intros outcome. discriminate.
Qed.

(** *** The lifecycle interface *)

(** C6: the object [main] returns, in either copy, has exactly the members
    [start], [destroy], [annotationsLoaded], [annotationCreated],
    [annotationDeleted], [annotationUpdated], [beforeAnnotationCreated] and
    [beforeAnnotationUpdated]; [start] sets [state.highlighter], and on the
    highlighter [state] holds the four rendering callbacks call [drawAll],
    [draw], [undraw] and [redraw] with their argument, and nothing else. *)
Theorem main_object_is_the_lifecycle_interface host options w obj w1 :
  UiMain.main host options w = (Ret obj, w1)
  \/ Part000.main host options w = (Ret obj, w1) ->
  map fst obj
  = ["start"; "destroy"; "annotationsLoaded"; "annotationCreated";
     "annotationDeleted"; "annotationUpdated";
     "beforeAnnotationCreated"; "beforeAnnotationUpdated"]
  /\ exists start loaded created deleted updated,
       member_of "start" obj = Some (method_app start)
       /\ member_of "annotationsLoaded" obj = Some (method_ann loaded)
       /\ member_of "annotationCreated" obj = Some (method_ann created)
       /\ member_of "annotationDeleted" obj = Some (method_ann deleted)
       /\ member_of "annotationUpdated" obj = Some (method_ann updated)
       /\ (forall app, is_Some (highlighter (st (final (start app w1)))))
       /\ forall w2 h v,
            highlighter (st w2) = Some h ->
            loaded v w2
              = (Ret tt, {| st := st w2; trace := trace w2 ++ [highlighter_drawAll h v] |})
            /\ created v w2
               = (Ret tt, {| st := st w2; trace := trace w2 ++ [highlighter_draw h v] |})
            /\ deleted v w2
               = (Ret tt, {| st := st w2; trace := trace w2 ++ [highlighter_undraw h v] |})
            /\ updated v w2
               = (Ret tt, {| st := st w2; trace := trace w2 ++ [highlighter_redraw h v] |}).
Proof.
  intros [Hmain | Hmain].
  - destruct (UiMain.main_options host options) as [o|e] eqn:Ho.
    + rewrite (UiMain_main_spec _ _ _ _ Ho) in Hmain.
      injection Hmain as <- <-. split; [reflexivity|].
      do 5 eexists. split_and!; try reflexivity.
      * intros app. by eexists.
      * intros w2 h v Hh.
        unfold UiMain.annotationsLoaded, UiMain.annotationCreated,
               UiMain.annotationDeleted, UiMain.annotationUpdated.
        run. by rewrite Hh.
    + rewrite (UiMain_main_throws _ _ _ _ Ho) in Hmain. discriminate.
  - destruct (Part000.main_options host options) as [o|e] eqn:Ho.
    + rewrite (Part000_main_spec _ _ _ _ Ho) in Hmain.
      injection Hmain as <- <-. split; [reflexivity|].
      do 5 eexists. split_and!; try reflexivity.
      * intros app. by eexists.
      * intros w2 h v Hh.
        unfold Part000.annotationsLoaded, Part000.annotationCreated,
               Part000.annotationDeleted, Part000.annotationUpdated.
        run. by rewrite Hh.
    + rewrite (Part000_main_throws _ _ _ _ Ho) in Hmain. discriminate.
Qed.

Lemma main_object_is_the_lifecycle_interface_witness :
  exists obj w1,
    UiMain.main sample_host VUndef (after_main []) = (Ret obj, w1)
    /\ map fst obj
       = ["start"; "destroy"; "annotationsLoaded"; "annotationCreated";
          "annotationDeleted"; "annotationUpdated";
          "beforeAnnotationCreated"; "beforeAnnotationUpdated"].
Proof.
  pose proof (UiMain_main_spec sample_host VUndef _ (after_main [])
                (UiMain_main_options_undefined sample_host)) as Hmain.
  do 2 eexists. split; [exact Hmain|].
  destruct (main_object_is_the_lifecycle_interface sample_host VUndef (after_main [])
              _ _ (or_introl Hmain)) as [Hkeys _].
  exact Hkeys.
Defined.

(** *** The permissions checkboxes *)

(** [addPermissionsCheckboxes] registers two checkbox fields, whose callbacks
    are those of the actions [read] and [update]. *)
Lemma addPermissionsCheckboxes_fields host e ident authz w :
  exists f_read f_update,
    Part000.addPermissionsCheckboxes host e ident authz w
    = (Ret tt, {| st := st w;
                  trace := trace w ++ [editor_addField e f_read; editor_addField e f_update] |})
    /\ field_load f_read = fn_loadCallback "read" ident authz
    /\ field_submit f_read = fn_submitCallback "read" ident authz
    /\ field_load f_update = fn_loadCallback "update" ident authz
    /\ field_submit f_update = fn_submitCallback "update" ident authz.
Proof.
  exists
    {| field_type := "checkbox";
       field_label := gettext host "Allow anyone to <strong>view</strong> this annotation";
       field_load := fn_loadCallback "read" ident authz;
       field_submit := fn_submitCallback "read" ident authz |},
    {| field_type := "checkbox";
       field_label := gettext host "Allow anyone to <strong>edit</strong> this annotation";
       field_load := fn_loadCallback "update" ident authz;
       field_submit := fn_submitCallback "update" ident authz |}.
  split_and!; try reflexivity.
  unfold Part000.addPermissionsCheckboxes. run. by rewrite <- app_assoc.
Qed.

Lemma in_permissions_spec (f : value -> res value) (o p p' : jsobj) :
  prop o "permissions" = VObj p ->
  f (VObj p) = Ret (VObj p') ->
  Part000.in_permissions f (VObj o) = (Ret tt, VObj (<[ "permissions" := VObj p' ]> o)).
Proof.
  intros Hp Hf. unfold Part000.in_permissions. run.
  change (default VUndef (o !! "permissions")) with (prop o "permissions").
  by rewrite Hp, Hf.
Qed.

(** With no user set the callback returns at once, whatever it was handed. *)
Lemma submitCallback_no_user action who_f authz field annotation :
  unset (who_f tt) = true ->
  Part000.submitCallback action (IdentityPolicy who_f) authz field annotation
  = (Ret tt, annotation).
Proof.
  intros Hu. unfold Part000.submitCallback. run. by rewrite Hu.
Qed.

(** With a user set, the callback first makes sure [permissions] holds a
    mapping and then writes through it. *)
Lemma submitCallback_user action who_f authz field (annotation p p' : jsobj)
    (f : value -> res value) :
  unset (who_f tt) = false ->
  held_permissions annotation p ->
  f (VObj p) = Ret (VObj p') ->
  (if checked field
   then Part000.in_permissions (fun permissions => delete_prop permissions action)
   else Part000.in_permissions (fun permissions =>
          match authorizedUserId authz (who_f tt) with
          | Ret id => set_prop permissions action (VArr [id])
          | Throw e => Throw e
          end)) = Part000.in_permissions f ->
  Part000.submitCallback action (IdentityPolicy who_f) authz field (VObj annotation)
  = (Ret tt, VObj (<[ "permissions" := VObj p' ]> annotation)).
Proof.
  intros Hu Hheld Hf Hbranch. unfold Part000.submitCallback.
  unfold bind at 1. unfold lift at 1. cbn [who]. rewrite Hu.
  rewrite Hbranch.
  unfold bind at 1. unfold get at 1.
  unfold bind at 1. unfold lift at 1. cbn [get_prop].
  change (default VUndef (annotation !! "permissions")) with (prop annotation "permissions").
  destruct Hheld as [[Hfalsy ->] | Hobj].
  - rewrite Hfalsy. cbn [negb]. run.
    rewrite (in_permissions_spec f (<[ "permissions" := VObj ∅ ]> annotation) ∅ p').
    + by rewrite insert_insert_eq.
    + unfold prop. by rewrite lookup_insert_eq.
    + exact Hf.
  - rewrite Hobj. cbn [truthy negb]. run.
    by rewrite (in_permissions_spec f annotation p p').
Qed.

(** C8: the submit callback of a permissions checkbox, for its action (the
    fields registered are those of [read] and [update]). With a current user
    [u] that is neither [undefined] nor [null]: when the box is checked, the
    action's key is removed from [annotation.permissions]; when it is not,
    [annotation.permissions[action]] becomes the one-element list holding
    [authorizedUserId(u)]. With no user set, the annotation is left as it
    was. [p] is the mapping the annotation holds under [permissions] (the
    empty one when it holds none). *)
Theorem submitCallback_writes_the_action action who_f permits_f userid_f
    field (annotation p : jsobj) :
  held_permissions annotation p ->
  let ident := IdentityPolicy who_f in
  let authz := AuthorizationPolicy permits_f userid_f in
  let u := who_f tt in
  (unset u = false -> checked field = true ->
     call_submit (fn_submitCallback action ident authz) field (VObj annotation)
     = (Ret tt, VObj (<[ "permissions" := VObj (delete action p) ]> annotation)))
  /\ (unset u = false -> checked field = false ->
        call_submit (fn_submitCallback action ident authz) field (VObj annotation)
        = (Ret tt,
           VObj (<[ "permissions" := VObj (<[ action := VArr [userid_f u] ]> p) ]> annotation)))
  /\ (unset u = true ->
        call_submit (fn_submitCallback action ident authz) field (VObj annotation)
        = (Ret tt, VObj annotation)).
Proof.
  intros Hheld ident authz u. cbn [call_submit]. split_and!.
  - intros Hu Hc.
    apply (submitCallback_user _ _ _ _ _ p _
             (fun permissions => delete_prop permissions action)); try done.
    by rewrite Hc.
  - intros Hu Hc.
    apply (submitCallback_user _ _ _ _ _ p _
             (fun permissions => set_prop permissions action (VArr [userid_f u]))); try done.
    by rewrite Hc.
  - intros Hu. by apply submitCallback_no_user.
Qed.

Lemma submitCallback_writes_the_action_witness :
  call_submit (fn_submitCallback "read" (IdentityPolicy (fun _ => VStr "alice"))
                 (AuthorizationPolicy sample_permits (fun u => u)))
    {| shown := true; checked := false |}
    (VObj {[ "ranges" := VArr [] ]})
  = (Ret tt,
     VObj (<[ "permissions" := VObj (<[ "read" := VArr [VStr "alice"] ]> ∅) ]>
             {[ "ranges" := VArr [] ]})).
Proof.
  apply (submitCallback_writes_the_action "read" (fun _ => VStr "alice")
           sample_permits (fun u => u) {| shown := true; checked := false |}
           {[ "ranges" := VArr [] ]} ∅).
  - left. split; reflexivity.
  - reflexivity.
  - reflexivity.
Defined.

(** *** The two copies on the sample selection *)

Example Part000_annotationFactory_sample :
  Part000.annotationFactory (VHost 0) ".annotator-hl" sample_ranges
  = VObj {[ "ranges" :=
              VArr [ VObj {[ "start" := VStr "/p[1]"; "startOffset" := VNum 0 ]};
                     VObj {[ "start" := VStr "/p[1]"; "startOffset" := VNum 7 ]} ] ]}.
Proof. reflexivity. Qed.

Example Part000_loop_sample :
  fst (Part000.annotationFactory_loop (VHost 0) ".annotator-hl" sample_ranges [] [])
  = ["first"; "second"].
Proof. reflexivity. Qed.

Example UiMain_session_sample :
  let run_session :=
    obj <- UiMain.main sample_host VUndef ;;
    match member_of "start" obj, member_of "destroy" obj with
    | Some (method_app start), Some (method_unit destroy) =>
        start sample_app ;;;
        call_selection sample_host
          (fn_onSelection_create (document_body sample_host) sample_app)
          sample_ranges (VHost 1) ;;;
        destroy
    | _, _ => ret tt
    end in
  result (run_session (after_main [])) = Throw TypeError
  /\ length (trace (final (run_session (after_main [])))) = 5.
Proof. split; reflexivity. Qed.

Example Part000_session_sample :
  let run_session :=
    obj <- Part000.main sample_host VUndef ;;
    match member_of "start" obj, member_of "destroy" obj with
    | Some (method_app start), Some (method_unit destroy) =>
        start sample_app ;;;
        call_selection sample_host
          (fn_onSelection_adder (document_body sample_host))
          sample_ranges (VHost 1) ;;;
        call_selection sample_host
          (fn_onSelection_adder (document_body sample_host)) [] (VHost 2) ;;;
        destroy
    | _, _ => ret tt
    end in
  result (run_session (after_main [])) = Ret tt
  /\ length (trace (final (run_session (after_main [])))) = 13.
Proof. split; reflexivity. Qed.

Example loadCallback_sample :
  call_load (fn_loadCallback "read" (getUtility sample_app "identityPolicy")
               (getUtility sample_app "authorizationPolicy"))
    (VObj {[ "permissions" := VObj {[ "read" := VArr [VStr "alice"] ]} ]})
    {| shown := false; checked := true |}
  = (Ret tt, {| shown := true; checked := false |}).
Proof. reflexivity. Qed.

Example submitCallback_sample_checked :
  call_submit (fn_submitCallback "read" (getUtility sample_app "identityPolicy")
                 (getUtility sample_app "authorizationPolicy"))
    {| shown := true; checked := true |}
    (VObj {[ "permissions" := VObj {[ "read" := VArr [VStr "bob"] ]} ]})
  = (Ret tt, VObj {[ "permissions" := VObj ∅ ]}).
Proof. vm_compute. reflexivity. Qed.

(** ** Further properties of the two copies *)

(** *** The load callback of a permissions checkbox *)

(** X1: whatever state the field was in, [loadCallback] leaves it shown
    exactly when a user is set and [permits('admin', annotation, u)] is
    truthy, and its box checked exactly when
    [permits(action, annotation, null)] is truthy. *)
Theorem loadCallback_shows_and_checks action who_f permits_f userid_f annotation field :
  call_load (fn_loadCallback action (IdentityPolicy who_f)
               (AuthorizationPolicy permits_f userid_f)) annotation field
  = (Ret tt,
     {| shown := negb (unset (who_f tt))
                 && truthy (permits_f "admin" annotation (who_f tt));
        checked := truthy (permits_f action annotation VNull) |}).
Proof.
  cbn [call_load]. unfold Part000.loadCallback. run.
  destruct (unset (who_f tt)); run;
    destruct (truthy (permits_f "admin" annotation (who_f tt))); run;
    destruct (truthy (permits_f action annotation VNull)); reflexivity.
Qed.

(** X2: when a policy lacks the method called on it, [loadCallback] throws
    a [TypeError] and the field stays as the steps before the call left it:
    shown, when [ident.who] is missing; shown or hidden by the user test
    alone, and its box untouched, when [authz.permits] is missing. *)
Theorem loadCallback_without_a_policy action ident authz annotation field :
  (who ident = Throw TypeError ->
     call_load (fn_loadCallback action ident authz) annotation field
     = (Throw TypeError, {| shown := true; checked := checked field |}))
  /\ (forall u,
        who ident = Ret u ->
        permits authz "admin" annotation u = Throw TypeError ->
        call_load (fn_loadCallback action ident authz) annotation field
        = (Throw TypeError, {| shown := negb (unset u); checked := checked field |})).
Proof.
  cbn [call_load]. unfold Part000.loadCallback. split.
  - intros Hwho. run. by rewrite Hwho.
  - intros u Hwho Hpermits. run. rewrite Hwho.
    destruct (unset u); run; by rewrite Hpermits.
Qed.

Lemma loadCallback_without_a_policy_witness :
  call_load (fn_loadCallback "read" OtherUtility OtherUtility) VNull
    {| shown := false; checked := true |}
  = (Throw TypeError, {| shown := true; checked := true |}).
Proof.
  apply (proj1 (loadCallback_without_a_policy "read" OtherUtility OtherUtility VNull
                  {| shown := false; checked := true |})).
  reflexivity.
Defined.

(** *** The submit callback of a permissions checkbox *)

(** The mapping the callback leaves under [permissions], from the one it
    found there. *)
Lemma submitCallback_spec action who_f permits_f userid_f field (annotation p : jsobj) :
  unset (who_f tt) = false ->
  held_permissions annotation p ->
  Part000.submitCallback action (IdentityPolicy who_f)
    (AuthorizationPolicy permits_f userid_f) field (VObj annotation)
  = (Ret tt,
     VObj (<[ "permissions" :=
               VObj (if checked field then delete action p
                     else <[ action := VArr [userid_f (who_f tt)] ]> p) ]> annotation)).
Proof.
  intros Hu Hheld. destruct (checked field) eqn:Hc.
  - apply (submitCallback_user _ _ _ _ _ p _
             (fun permissions => delete_prop permissions action)); try done.
    by rewrite Hc.
  - apply (submitCallback_user _ _ _ _ _ p _
             (fun permissions => set_prop permissions action
                                   (VArr [userid_f (who_f tt)]))); try done.
    by rewrite Hc.
Qed.

Lemma held_after_insert (annotation p : jsobj) :
  held_permissions (<[ "permissions" := VObj p ]> annotation) p.
Proof. right. unfold prop. by rewrite lookup_insert_eq. Qed.

(** X3: submitting the same checkbox twice is submitting it once: the
    second run of [submitCallback] returns normally and leaves the annotation
    the first run made. *)
Theorem submitCallback_twice action who_f permits_f userid_f field (annotation p : jsobj) :
  held_permissions annotation p ->
  let submit := call_submit (fn_submitCallback action (IdentityPolicy who_f)
                               (AuthorizationPolicy permits_f userid_f)) field in
  exists once,
    submit (VObj annotation) = (Ret tt, once)
    /\ submit once = (Ret tt, once).
Proof.
  intros Hheld submit. subst submit. cbn [call_submit].
  destruct (unset (who_f tt)) eqn:Hu.
  - exists (VObj annotation). split; by apply submitCallback_no_user.
  - eexists. split; [by apply submitCallback_spec|].
    rewrite (submitCallback_spec _ _ _ _ _ _ _ Hu (held_after_insert _ _)).
    rewrite insert_insert_eq. do 3 f_equal.
    destruct (checked field).
    + by rewrite delete_delete_eq.
    + by rewrite insert_insert_eq.
Qed.

Lemma submitCallback_twice_witness :
  let submit :=
    call_submit (fn_submitCallback "update" (IdentityPolicy (fun _ => VStr "alice"))
                   (AuthorizationPolicy sample_permits (fun u => u)))
      {| shown := true; checked := false |} in
  exists once,
    submit (VObj {[ "ranges" := VArr [] ]}) = (Ret tt, once)
    /\ submit once = (Ret tt, once).
Proof.
  apply (submitCallback_twice "update" (fun _ => VStr "alice") sample_permits (fun u => u)
           {| shown := true; checked := false |} {[ "ranges" := VArr [] ]} ∅).
  left. split; reflexivity.
Defined.

(** X4: the callbacks of two different actions (the editor registers those
    of [read] and [update]) do not interfere: submitted in either order,
    each with its own box, they return normally and leave the same
    annotation. *)
Theorem submitCallback_actions_commute a b who_f permits_f userid_f
    field_a field_b (annotation p : jsobj) :
  a <> b ->
  held_permissions annotation p ->
  let submit action field :=
    call_submit (fn_submitCallback action (IdentityPolicy who_f)
                   (AuthorizationPolicy permits_f userid_f)) field in
  exists both,
    (submit a field_a ;;; submit b field_b) (VObj annotation) = (Ret tt, both)
    /\ (submit b field_b ;;; submit a field_a) (VObj annotation) = (Ret tt, both).
Proof.
  intros Hab Hheld submit. subst submit. cbn [call_submit]. cbv beta.
  destruct (unset (who_f tt)) eqn:Hu.
  - exists (VObj annotation). unfold bind.
    by rewrite !(submitCallback_no_user _ _ _ _ _ Hu).
  - eexists. unfold bind.
    rewrite !(submitCallback_spec _ _ _ _ _ _ _ Hu Hheld).
    rewrite !(submitCallback_spec _ _ _ _ _ _ _ Hu (held_after_insert _ _)).
    rewrite !insert_insert_eq. split; [reflexivity|]. do 4 f_equal.
    destruct (checked field_a), (checked field_b).
    + apply delete_delete.
    + by rewrite delete_insert_ne.
    + by rewrite delete_insert_ne.
    + by apply insert_insert_ne.
Qed.

Lemma submitCallback_actions_commute_witness :
  let submit action field :=
    call_submit (fn_submitCallback action (IdentityPolicy (fun _ => VStr "alice"))
                   (AuthorizationPolicy sample_permits (fun u => u))) field in
  exists both,
    (submit "read" {| shown := true; checked := false |} ;;;
     submit "update" {| shown := true; checked := true |})
      (VObj {[ "permissions" := VObj {[ "update" := VArr [VStr "bob"] ]} ]})
    = (Ret tt, both)
    /\ (submit "update" {| shown := true; checked := true |} ;;;
        submit "read" {| shown := true; checked := false |})
         (VObj {[ "permissions" := VObj {[ "update" := VArr [VStr "bob"] ]} ]})
       = (Ret tt, both).
Proof.
  apply (submitCallback_actions_commute "read" "update" (fun _ => VStr "alice")
           sample_permits (fun u => u)
           {| shown := true; checked := false |} {| shown := true; checked := true |}
           {[ "permissions" := VObj {[ "update" := VArr [VStr "bob"] ]} ]}
           {[ "update" := VArr [VStr "bob"] ]}).
  - discriminate.
  - right. reflexivity.
Defined.

(** X5: with a user set, [submitCallback] returns normally on an annotation
    object and writes under [permissions] only: every other key of the
    annotation is as before, [permissions] holds a mapping afterwards (an
    empty one is put there when the box is checked and the annotation had
    none), and in that mapping the entries of the other actions are as
    before. *)
Theorem submitCallback_writes_nothing_else action who_f permits_f userid_f
    field (annotation p : jsobj) :
  unset (who_f tt) = false ->
  held_permissions annotation p ->
  exists after p',
    call_submit (fn_submitCallback action (IdentityPolicy who_f)
                   (AuthorizationPolicy permits_f userid_f)) field (VObj annotation)
    = (Ret tt, VObj after)
    /\ after !! "permissions" = Some (VObj p')
    /\ (forall k, k <> "permissions" -> after !! k = annotation !! k)
    /\ (forall action', action' <> action -> p' !! action' = p !! action').
Proof.
  intros Hu Hheld. cbn [call_submit].
  rewrite (submitCallback_spec _ _ _ _ _ _ _ Hu Hheld).
  do 2 eexists. split; [reflexivity|]. split_and!.
  - apply lookup_insert_eq.
  - intros k Hk. by rewrite lookup_insert_ne.
  - intros action' Hne. destruct (checked field).
    + by rewrite lookup_delete_ne.
    + by rewrite lookup_insert_ne.
Qed.

Lemma submitCallback_writes_nothing_else_witness :
  exists after p',
    call_submit (fn_submitCallback "read" (IdentityPolicy (fun _ => VStr "alice"))
                   (AuthorizationPolicy sample_permits (fun u => u)))
      {| shown := true; checked := true |} (VObj {[ "ranges" := VArr [] ]})
    = (Ret tt, VObj after)
    /\ after !! "permissions" = Some (VObj p')
    /\ after !! "ranges" = Some (VArr []).
Proof.
  destruct (submitCallback_writes_nothing_else "read" (fun _ => VStr "alice")
              sample_permits (fun u => u) {| shown := true; checked := true |}
              {[ "ranges" := VArr [] ]} ∅)
    as (after & p' & Hrun & Hperm & Hkeys & _).
  - reflexivity.
  - left. split; reflexivity.
  - exists after, p'. split_and!; [exact Hrun | exact Hperm |].
    rewrite Hkeys by discriminate. reflexivity.
Defined.

(** X6: [submitCallback] throws a [TypeError] and leaves what it was handed
    untouched when [ident.who] is missing, and, with a user set, when the
    annotation is [undefined], [null], a boolean, a number or a string (the
    write of [permissions] on it throws under ['use strict']). *)
Theorem submitCallback_throws_on_a_non_object action ident authz field annotation :
  (who ident = Throw TypeError ->
     call_submit (fn_submitCallback action ident authz) field annotation
     = (Throw TypeError, annotation))
  /\ (forall u,
        who ident = Ret u -> unset u = false ->
        annotation = VUndef \/ annotation = VNull \/ primitive annotation = true ->
        call_submit (fn_submitCallback action ident authz) field annotation
        = (Throw TypeError, annotation)).
Proof.
  cbn [call_submit]. unfold Part000.submitCallback. split.
  - intros Hwho. run. by rewrite Hwho.
  - intros u Hwho Hu Hann. run. rewrite Hwho, Hu.
    destruct Hann as [-> | [-> | Hprim]]; [reflexivity | reflexivity |].
    destruct annotation; try discriminate Hprim; reflexivity.
Qed.

Lemma submitCallback_throws_on_a_non_object_witness :
  call_submit (fn_submitCallback "read" (IdentityPolicy (fun _ => VStr "alice"))
                 OtherUtility)
    {| shown := true; checked := true |} (VNum 5)
  = (Throw TypeError, VNum 5).
Proof.
  apply (proj2 (submitCallback_throws_on_a_non_object "read"
                  (IdentityPolicy (fun _ => VStr "alice")) OtherUtility
                  {| shown := true; checked := true |} (VNum 5)) (VStr "alice")).
  - reflexivity.
  - reflexivity.
  - right. right. reflexivity.
Defined.

(** X7: [authz.authorizedUserId] is called only when the box is not
    checked. With a user set and the box checked, the callback returns
    normally whatever [authz] is; with the box not checked and the method
    missing, it throws a [TypeError] after [permissions] has been made a
    mapping: an annotation that had none is left with an empty one. *)
Theorem submitCallback_without_authorizedUserId action who_f authz field
    (annotation p : jsobj) :
  unset (who_f tt) = false ->
  held_permissions annotation p ->
  (checked field = true ->
     call_submit (fn_submitCallback action (IdentityPolicy who_f) authz) field
       (VObj annotation)
     = (Ret tt, VObj (<[ "permissions" := VObj (delete action p) ]> annotation)))
  /\ (checked field = false ->
        authorizedUserId authz (who_f tt) = Throw TypeError ->
        call_submit (fn_submitCallback action (IdentityPolicy who_f) authz) field
          (VObj annotation)
        = (Throw TypeError, VObj (<[ "permissions" := VObj p ]> annotation))).
Proof.
  intros Hu Hheld. cbn [call_submit]. split.
  - intros Hc.
    apply (submitCallback_user _ _ _ _ _ p _
             (fun permissions => delete_prop permissions action)); try done.
    by rewrite Hc.
  - intros Hc Hid. unfold Part000.submitCallback, Part000.in_permissions. run.
    rewrite Hu, Hc, Hid. cbn [get_prop].
    change (default VUndef (annotation !! "permissions"))
      with (prop annotation "permissions").
    destruct Hheld as [[Hfalsy ->] | Hobj].
    + rewrite Hfalsy. by cbn [negb set_prop get_prop].
    + rewrite Hobj. cbn [truthy negb get_prop].
      rewrite insert_id; [done|].
      unfold prop in Hobj. by destruct (annotation !! "permissions"); simplify_eq/=.
Qed.

Lemma submitCallback_without_authorizedUserId_witness :
  call_submit (fn_submitCallback "read" (IdentityPolicy (fun _ => VStr "alice"))
                 OtherUtility)
    {| shown := true; checked := false |} (VObj {[ "ranges" := VArr [] ]})
  = (Throw TypeError,
     VObj (<[ "permissions" := VObj ∅ ]> {[ "ranges" := VArr [] ]})).
Proof.
  destruct (submitCallback_without_authorizedUserId "read" (fun _ => VStr "alice")
              OtherUtility {| shown := true; checked := false |}
              {[ "ranges" := VArr [] ]} ∅) as [_ Hthrows].
  - reflexivity.
  - left. split; reflexivity.
  - apply Hthrows; reflexivity.
Defined.

(** *** The options of [main] *)

Lemma or_else_idem v d : or_else (or_else v d) d = or_else v d.
Proof.
  unfold or_else. destruct (truthy v) eqn:Hv.
  - by rewrite Hv.
  - by destruct (truthy d).
Qed.

Lemma UiMain_main_options_object host (o : jsobj) :
  UiMain.main_options host (VObj o)
  = Ret (<[ "viewerExtensions" := or_else (prop o "viewerExtensions") (VArr []) ]>
           (<[ "element" := or_else (prop o "element") (document_body host) ]> o)).
Proof.
  unfold UiMain.main_options. change (unset (VObj o)) with false. cbv iota zeta.
  unfold prop. by rewrite !lookup_insert_ne by discriminate.
Qed.

Lemma Part000_main_options_object host (o : jsobj) :
  Part000.main_options host (VObj o)
  = Ret (<[ "viewerExtensions" := or_else (prop o "viewerExtensions") (VArr []) ]>
           (<[ "editorExtensions" := or_else (prop o "editorExtensions") (VArr []) ]>
              (<[ "element" := or_else (prop o "element") (document_body host) ]> o))).
Proof.
  unfold Part000.main_options. change (unset (VObj o)) with false. cbv iota zeta.
  unfold prop. by rewrite !lookup_insert_ne by discriminate.
Qed.

(** Whatever [main] accepts is [undefined], [null] or an object, and the
    first two are treated as the empty object. *)
Lemma UiMain_main_options_inv host options o :
  UiMain.main_options host options = Ret o ->
  exists o0,
    UiMain.main_options host (VObj o0) = Ret o
    /\ forall k, given options k = o0 !! k.
Proof.
  destruct options as [| | b | n | s | l | o0 | id]; intros Ho;
    [by exists ∅ | by exists ∅ | discriminate Ho .. | by exists o0 | discriminate Ho].
Qed.

Lemma Part000_main_options_inv host options o :
  Part000.main_options host options = Ret o ->
  exists o0,
    Part000.main_options host (VObj o0) = Ret o
    /\ forall k, given options k = o0 !! k.
Proof.
  destruct options as [| | b | n | s | l | o0 | id]; intros Ho;
    [by exists ∅ | by exists ∅ | discriminate Ho .. | by exists o0 | discriminate Ho].
Qed.

(** X8: the options [main] leaves are a fixed point of its defaulting: given
    back to [main], they are accepted and left as they are. So in both
    copies. *)
Theorem main_options_twice host options o :
  (UiMain.main_options host options = Ret o ->
     UiMain.main_options host (VObj o) = Ret o)
  /\ (Part000.main_options host options = Ret o ->
        Part000.main_options host (VObj o) = Ret o).
Proof.
  split; intros Ho.
  - apply UiMain_main_options_inv in Ho as (o0 & Ho & _).
    rewrite UiMain_main_options_object in Ho. injection Ho as <-.
    rewrite UiMain_main_options_object. f_equal. unfold prop.
    rewrite lookup_insert_eq.
    rewrite lookup_insert_ne by discriminate. rewrite lookup_insert_eq.
    cbn [from_option id]. rewrite !or_else_idem.
    rewrite (insert_id _ "element").
    + by rewrite insert_insert_eq.
    + rewrite lookup_insert_ne by discriminate. by rewrite lookup_insert_eq.
  - apply Part000_main_options_inv in Ho as (o0 & Ho & _).
    rewrite Part000_main_options_object in Ho. injection Ho as <-.
    rewrite Part000_main_options_object. f_equal. unfold prop.
    rewrite lookup_insert_eq.
    rewrite (lookup_insert_ne _ "viewerExtensions" "editorExtensions") by discriminate.
    rewrite lookup_insert_eq.
    rewrite !(lookup_insert_ne _ _ "element") by discriminate.
    rewrite lookup_insert_eq.
    cbn [from_option id]. rewrite !or_else_idem.
    rewrite (insert_id _ "element").
    + rewrite (insert_id _ "editorExtensions").
      * by rewrite insert_insert_eq.
      * rewrite lookup_insert_ne by discriminate. by rewrite lookup_insert_eq.
    + rewrite !lookup_insert_ne by discriminate. by rewrite lookup_insert_eq.
Qed.

Lemma main_options_twice_witness :
  Part000.main_options sample_host
    (VObj (<[ "viewerExtensions" := VArr [] ]>
             (<[ "editorExtensions" := VArr [] ]>
                (<[ "element" := document_body sample_host ]> ∅))))
  = Ret (<[ "viewerExtensions" := VArr [] ]>
           (<[ "editorExtensions" := VArr [] ]>
              (<[ "element" := document_body sample_host ]> ∅))).
Proof.
  apply (proj2 (main_options_twice sample_host VUndef _)).
  apply Part000_main_options_undefined.
Defined.

(** X9: on an options object, [main] touches only the keys it defaults
    ([element] and [viewerExtensions]; in the copy with the editor also
    [editorExtensions]). Under such a key a truthy value is kept, and a falsy
    one ([null], [false], [0], the empty string) is replaced by the default
    like a missing one. Every other key is left as it was. *)
Theorem main_options_on_an_object host (o0 : jsobj) :
  exists o o',
    UiMain.main_options host (VObj o0) = Ret o
    /\ Part000.main_options host (VObj o0) = Ret o'
    /\ (forall k d v,
          In (k, d) [("element", document_body host); ("viewerExtensions", VArr [])] ->
          o0 !! k = Some v ->
          o !! k = Some (if truthy v then v else d))
    /\ (forall k d v,
          In (k, d) [("element", document_body host); ("editorExtensions", VArr []);
                     ("viewerExtensions", VArr [])] ->
          o0 !! k = Some v ->
          o' !! k = Some (if truthy v then v else d))
    /\ (forall k, k <> "element" -> k <> "viewerExtensions" -> o !! k = o0 !! k)
    /\ (forall k, k <> "element" -> k <> "editorExtensions" -> k <> "viewerExtensions" ->
          o' !! k = o0 !! k).
Proof.
  do 2 eexists.
  split; [apply UiMain_main_options_object|].
  split; [apply Part000_main_options_object|].
  split_and!.
  - intros k d v Hin Hk. unfold prop, or_else.
    destruct Hin as [[= <- <-] | [[= <- <-] | []]];
      repeat (rewrite lookup_insert_eq || rewrite lookup_insert_ne by discriminate);
      by rewrite Hk.
  - intros k d v Hin Hk. unfold prop, or_else.
    destruct Hin as [[= <- <-] | [[= <- <-] | [[= <- <-] | []]]];
      repeat (rewrite lookup_insert_eq || rewrite lookup_insert_ne by discriminate);
      by rewrite Hk.
  - intros k H1 H2. by rewrite !lookup_insert_ne.
  - intros k H1 H2 H3. by rewrite !lookup_insert_ne.
Qed.

Lemma main_options_on_an_object_witness :
  exists o,
    UiMain.main_options sample_host
      (VObj {[ "element" := VNull; "readOnly" := VBool true ]}) = Ret o
    /\ o !! "element" = Some (VHost 0)
    /\ o !! "readOnly" = Some (VBool true).
Proof.
  destruct (main_options_on_an_object sample_host
              {[ "element" := VNull; "readOnly" := VBool true ]})
    as (o & o' & Ho & _ & Hdefault & _ & Hother & _).
  exists o. split_and!.
  - exact Ho.
  - apply (Hdefault "element" (VHost 0) VNull); [by left | reflexivity].
  - rewrite Hother by discriminate. reflexivity.
Defined.

(** X10: handed a boolean, a number or a string, [main] throws a
    [TypeError] on its first write, [options.element = ...], which
    ['use strict'] forbids on a primitive, before [state] is made: the world
    is left as it was. So in both copies. *)
Theorem main_throws_on_a_primitive host options w :
  primitive options = true ->
  UiMain.main host options w = (Throw TypeError, w)
  /\ Part000.main host options w = (Throw TypeError, w).
Proof.
  intros Hprim.
  destruct options; try discriminate Hprim;
    (split; [apply UiMain_main_throws | apply Part000_main_throws]); reflexivity.
Qed.

Lemma main_throws_on_a_primitive_witness :
  UiMain.main sample_host (VStr "#content") (after_main [])
  = (Throw TypeError, after_main []).
Proof.
  apply (proj1 (main_throws_on_a_primitive sample_host (VStr "#content") (after_main [])
                  eq_refl)).
Defined.

(** *** The module object before and after [start] *)

(** X11: between [main] and [start] no collaborator is set: [destroy] and
    the four rendering callbacks of the object [main] returns, called then,
    throw a [TypeError] and leave the world as it was. So in both copies; in
    the copy with the editor [beforeAnnotationCreated] and
    [beforeAnnotationUpdated] throw as well. *)
Theorem callbacks_throw_before_start host options w obj w0 :
  UiMain.main host options w = (Ret obj, w0)
  \/ Part000.main host options w = (Ret obj, w0) ->
  (exists destroy loaded created deleted updated,
     member_of "destroy" obj = Some (method_unit destroy)
     /\ member_of "annotationsLoaded" obj = Some (method_ann loaded)
     /\ member_of "annotationCreated" obj = Some (method_ann created)
     /\ member_of "annotationDeleted" obj = Some (method_ann deleted)
     /\ member_of "annotationUpdated" obj = Some (method_ann updated)
     /\ destroy w0 = (Throw TypeError, w0)
     /\ forall v,
          loaded v w0 = (Throw TypeError, w0)
          /\ created v w0 = (Throw TypeError, w0)
          /\ deleted v w0 = (Throw TypeError, w0)
          /\ updated v w0 = (Throw TypeError, w0))
  /\ (Part000.main host options w = (Ret obj, w0) ->
        exists before_created before_updated,
          member_of "beforeAnnotationCreated" obj = Some (method_deferred before_created)
          /\ member_of "beforeAnnotationUpdated" obj = Some (method_deferred before_updated)
          /\ forall annotation,
               result (before_created annotation w0) = Throw TypeError
               /\ result (before_updated annotation w0) = Throw TypeError
               /\ final (before_created annotation w0) = w0
               /\ final (before_updated annotation w0) = w0).
Proof.
  intros Hmain. split.
  - destruct Hmain as [Hmain | Hmain].
    + destruct (UiMain.main_options host options) as [o|e] eqn:Ho.
      * rewrite (UiMain_main_spec _ _ _ _ Ho) in Hmain. injection Hmain as <- <-.
        do 5 eexists. split_and!; try reflexivity. intros v. by split_and!.
      * rewrite (UiMain_main_throws _ _ _ _ Ho) in Hmain. discriminate.
    + destruct (Part000.main_options host options) as [o|e] eqn:Ho.
      * rewrite (Part000_main_spec _ _ _ _ Ho) in Hmain. injection Hmain as <- <-.
        do 5 eexists. split_and!; try reflexivity. intros v. by split_and!.
      * rewrite (Part000_main_throws _ _ _ _ Ho) in Hmain. discriminate.
  - clear Hmain. intros Hmain.
    destruct (Part000.main_options host options) as [o|e] eqn:Ho.
    + rewrite (Part000_main_spec _ _ _ _ Ho) in Hmain. injection Hmain as <- <-.
      do 2 eexists. split_and!; try reflexivity. intros annotation. by split_and!.
    + rewrite (Part000_main_throws _ _ _ _ Ho) in Hmain. discriminate.
Qed.

Lemma callbacks_throw_before_start_witness :
  exists obj w0 created,
    Part000.main sample_host VUndef (after_main []) = (Ret obj, w0)
    /\ member_of "annotationCreated" obj = Some (method_ann created)
    /\ created (VObj ∅) w0 = (Throw TypeError, w0).
Proof.
  pose proof (Part000_main_spec sample_host VUndef _ (after_main [])
                (Part000_main_options_undefined sample_host)) as Hmain.
  destruct (callbacks_throw_before_start sample_host VUndef (after_main [])
              _ _ (or_intror Hmain))
    as [(d & l & c & x & u & _ & _ & Hc & _ & _ & _ & Hthrow) _].
  do 2 eexists. exists c. split_and!; [exact Hmain | exact Hc |].
  exact (proj1 (proj2 (Hthrow (VObj ∅)))).
Defined.

(** X12: in the copy with the editor, [destroy] and the rendering callbacks
    never write [state]: after [start], [destroy] can run twice, each time
    calling [destroy] on the five collaborators and removing the dynamic
    style, and [annotationCreated] then still calls [draw] on the
    highlighter that was destroyed. In either copy [destroy] leaves [state]
    as it was, also when it throws. *)
Theorem destroy_keeps_the_state host options app w0 w ann :
  st (final (UiMain.destroy w)) = st w
  /\ st (final (Part000.destroy w)) = st w
  /\ exists a e h t v,
       let w1 := final (Part000.start host options app w0) in
       let destroyed := [adder_destroy a; editor_destroy e; highlighter_destroy h;
                         textselector_destroy t; viewer_destroy v;
                         dynamic_style_remove] in
       st w1 = with_viewer v (with_textselector t (with_highlighter h
                 (with_editor e (with_adder a (st w0)))))
       /\ (Part000.destroy ;;; Part000.destroy ;;; Part000.annotationCreated ann) w1
          = (Ret tt,
             {| st := st w1;
                trace := trace w1 ++ destroyed ++ destroyed ++ [highlighter_draw h ann] |}).
Proof.
  split_and!.
  - destruct w as [[point a e h t v] tr].
    unfold UiMain.destroy, UiMain.removeDynamicStyle. run.
    destruct e, h, t, v; reflexivity.
  - destruct w as [[point a e h t v] tr].
    unfold Part000.destroy, Part000.removeDynamicStyle. run.
    destruct a, e, h, t, v; reflexivity.
  - do 5 eexists. cbv zeta. split; [reflexivity|].
    unfold Part000.destroy, Part000.removeDynamicStyle, Part000.annotationCreated,
           Part000.start, Part000.addPermissionsCheckboxes.
    run. f_equal. f_equal. by rewrite <- !app_assoc.
Qed.

(** *** Where the editor opens *)

(** X13: in the copy with the editor, [beforeAnnotationCreated] loads the
    editor at the interaction point [state] holds: at [null] when nothing was
    selected since [main], and after a selection with ranges at the mouse
    position of that selection's event; a later empty selection hides the
    adder and does not move the point. *)
Theorem editor_opens_at_the_last_selection host options app tr ranges event event'
    annotation :
  ranges <> [] ->
  let w1 := final (Part000.start host options app (after_main tr)) in
  exists h a e,
    installed_onSelection w1 = Some h
    /\ adder (st w1) = Some a
    /\ editor (st w1) = Some e
    /\ Part000.beforeAnnotationCreated annotation w1
       = (Ret Editor_load_result,
          {| st := st w1; trace := trace w1 ++ [editor_load e annotation VNull] |})
    /\ (call_selection host h ranges event ;;;
        call_selection host h [] event' ;;;
        Part000.beforeAnnotationCreated annotation) w1
       = (Ret Editor_load_result,
          {| st := with_interactionPoint (mousePosition host event) (st w1);
             trace := trace w1
                      ++ [adder_load a (annotation_of (prop options "element") (ranges, event))
                            (mousePosition host event);
                          adder_hide a;
                          editor_load e annotation (mousePosition host event)] |}).
Proof.
  intros Hne w1.
  exists (fn_onSelection_adder (prop options "element")),
         {| adder_onCreate := fn_onCreate app |},
         {| editor_extensions := prop options "editorExtensions" |}.
  split_and!; try reflexivity.
  cbn [call_selection]. unfold bind at 1.
  rewrite (Part000_onSelection_nonempty _ _ _ _ _ {| adder_onCreate := fn_onCreate app |})
    by done.
  cbv zeta. unfold Part000.onSelection, Part000.beforeAnnotationCreated, annotation_of.
  change (0 <? length [])%nat with false. cbv iota.
  subst w1. unfold Part000.start, Part000.addPermissionsCheckboxes, after_main.
  run. by rewrite <- !app_assoc.
Qed.

Lemma editor_opens_at_the_last_selection_witness :
  exists w,
    (call_selection sample_host (fn_onSelection_adder (VHost 0)) sample_ranges (VHost 1) ;;;
     call_selection sample_host (fn_onSelection_adder (VHost 0)) [] (VHost 2) ;;;
     Part000.beforeAnnotationCreated (VObj ∅))
      (final (Part000.start sample_host {[ "element" := VHost 0 ]} sample_app (after_main [])))
    = (Ret Editor_load_result, w)
    /\ interactionPoint (st w) = mousePosition sample_host (VHost 1).
Proof.
  destruct (editor_opens_at_the_last_selection sample_host {[ "element" := VHost 0 ]}
              sample_app [] sample_ranges (VHost 1) (VHost 2) (VObj ∅))
    as (h & a & e & Hh & _ & _ & _ & Hrun).
  - discriminate.
  - injection Hh as <-. eexists. split; [exact Hrun | reflexivity].
Defined.

(** X14: the [onEdit] handler [start] gives the viewer takes the viewer's
    [top] and [left] as the interaction point and calls
    [app.annotations.update] with the annotation; in the copy with the editor
    [beforeAnnotationUpdated] then loads the editor with that annotation at
    that point. [onDelete] calls [app.annotations.delete] and leaves [state]
    as it was. Before [start], [onEdit] throws a [TypeError]: there is no
    viewer to read the position of. *)
Theorem onEdit_moves_the_editor_to_the_viewer host options app tr ann :
  let w1 := final (Part000.start host options app (after_main tr)) in
  exists v e,
    viewer (st w1) = Some v
    /\ editor (st w1) = Some e
    /\ viewer (st (final (UiMain.start options app (after_main tr)))) = Some v
    /\ (call_handler host (viewer_onEdit v) ann ;;; Part000.beforeAnnotationUpdated ann) w1
       = (Ret Editor_load_result,
          {| st := with_interactionPoint (css host v ["top"; "left"]) (st w1);
             trace := trace w1
                      ++ [annotations_update app ann;
                          editor_load e ann (css host v ["top"; "left"])] |})
    /\ call_handler host (viewer_onDelete v) ann w1
       = (Ret tt, {| st := st w1; trace := trace w1 ++ [annotations_delete app ann] |})
    /\ call_handler host (viewer_onEdit v) ann (after_main tr)
       = (Throw TypeError, after_main tr).
Proof.
  intros w1.
  eexists _, {| editor_extensions := prop options "editorExtensions" |}.
  split_and!; try reflexivity.
  cbn [call_handler viewer_onEdit]. unfold UiMain.onEdit, Part000.beforeAnnotationUpdated.
  subst w1. unfold Part000.start, Part000.addPermissionsCheckboxes, after_main.
  run. by rewrite <- !app_assoc.
Qed.

(** *** Runs of selections *)

Lemma created_app tr tr' : created (tr ++ tr') = created tr ++ created tr'.
Proof. apply omap_app. Qed.

Lemma created_logged contextEl ignoreSelector ranges :
  created (logged contextEl ignoreSelector ranges) = [].
Proof. induction ranges as [|r ranges IH]; [done|]. exact IH. Qed.

(** One selection in [src/ui/main.js], with or without ranges. *)
Lemma UiMain_onSelection_step host contextEl app selection w :
  exists w',
    UiMain.onSelection host contextEl app (fst selection) (snd selection) w = (Ret tt, w')
    /\ created (trace w')
       = created (trace w)
         ++ (if nonempty selection then [annotation_of contextEl selection] else [])
    /\ interactionPoint (st w')
       = (if nonempty selection then mousePosition host (snd selection)
          else interactionPoint (st w))
    /\ (adder (st w'), editor (st w'), highlighter (st w'), textselector (st w'),
        viewer (st w'))
       = (adder (st w), editor (st w), highlighter (st w), textselector (st w),
          viewer (st w)).
Proof.
  destruct selection as [ranges event]. cbn [fst snd].
  destruct ranges as [|r ranges].
  - exists w. split_and!; try reflexivity. by rewrite app_nil_r.
  - eexists. split; [by apply UiMain_onSelection_nonempty|]. cbv zeta.
    split_and!; try reflexivity. cbn [trace].
    rewrite !created_app, created_logged. reflexivity.
Qed.

(** X15: in [src/ui/main.js] every selection that carries a range is
    created at once: after any run of selections the handler has returned
    normally each time, the annotations handed to [app.annotations.create]
    are, in order, those of the selections with at least one range (none for
    an empty selection), the interaction point is the mouse position of the
    last such selection, and no collaborator field of [state] has changed. *)
Theorem UiMain_creates_once_per_selection host contextEl app selections w :
  let r := fire_selections host (fn_onSelection_create contextEl app) selections w in
  result r = Ret tt
  /\ created (trace (final r))
     = created (trace w) ++ map (annotation_of contextEl) (List.filter nonempty selections)
  /\ interactionPoint (st (final r))
     = last_position host (interactionPoint (st w)) selections
  /\ (adder (st (final r)), editor (st (final r)), highlighter (st (final r)),
      textselector (st (final r)), viewer (st (final r)))
     = (adder (st w), editor (st w), highlighter (st w), textselector (st w),
        viewer (st w)).
Proof.
  cbv zeta. revert w.
  induction selections as [|selection selections IH]; intros w.
  - split_and!; try reflexivity. by rewrite app_nil_r.
  - destruct (UiMain_onSelection_step host contextEl app selection w)
      as (w' & Hstep & Hcreated & Hpoint & Hfields).
    destruct selection as [ranges event]. cbn [fst snd] in Hstep.
    cbn [fire_selections call_selection]. unfold bind. rewrite Hstep. cbv beta iota.
    destruct (IH w') as (Hres & Hcr & Hpt & Hfl).
    split_and!.
    + exact Hres.
    + rewrite Hcr, Hcreated. cbn [List.filter last_position].
      destruct (nonempty (ranges, event)); by rewrite <- app_assoc.
    + rewrite Hpt, Hpoint. reflexivity.
    + rewrite Hfl. exact Hfields.
Qed.

(** One selection in the copy with the adder, once the adder is set. *)
Lemma Part000_onSelection_step host contextEl selection w a :
  adder (st w) = Some a ->
  exists w',
    Part000.onSelection host contextEl (fst selection) (snd selection) w = (Ret tt, w')
    /\ trace w'
       = trace w
         ++ [if nonempty selection
             then adder_load a (annotation_of contextEl selection)
                    (mousePosition host (snd selection))
             else adder_hide a]
    /\ interactionPoint (st w')
       = (if nonempty selection then mousePosition host (snd selection)
          else interactionPoint (st w))
    /\ (adder (st w'), editor (st w'), highlighter (st w'), textselector (st w'),
        viewer (st w'))
       = (adder (st w), editor (st w), highlighter (st w), textselector (st w),
          viewer (st w)).
Proof.
  intros Ha. destruct selection as [ranges event]. cbn [fst snd].
  destruct ranges as [|r ranges].
  - eexists. split.
    + unfold Part000.onSelection. change (0 <? length [])%nat with false. cbv iota.
      run. rewrite Ha. reflexivity.
    + split_and!; reflexivity.
  - eexists. split; [by apply (Part000_onSelection_nonempty _ _ _ _ _ a)|].
    cbv zeta. split_and!; reflexivity.
Qed.

(** X16: in the copy with the adder a selection never creates an
    annotation by itself. Once the adder is set, after any run of selections
    the handler has returned normally each time, nothing was handed to
    [app.annotations.create], each selection made exactly one call, on the
    adder ([load] with the annotation and the mouse position when it carried
    a range, [hide] when it carried none), the interaction point is the mouse
    position of the last selection with a range, and no collaborator field of
    [state] has changed. *)
Theorem Part000_selections_only_move_the_adder host contextEl selections w a :
  adder (st w) = Some a ->
  let r := fire_selections host (fn_onSelection_adder contextEl) selections w in
  result r = Ret tt
  /\ trace (final r)
     = trace w
       ++ map (fun selection =>
                 if nonempty selection
                 then adder_load a (annotation_of contextEl selection)
                        (mousePosition host (snd selection))
                 else adder_hide a) selections
  /\ created (trace (final r)) = created (trace w)
  /\ interactionPoint (st (final r))
     = last_position host (interactionPoint (st w)) selections
  /\ (adder (st (final r)), editor (st (final r)), highlighter (st (final r)),
      textselector (st (final r)), viewer (st (final r)))
     = (adder (st w), editor (st w), highlighter (st w), textselector (st w),
        viewer (st w)).
Proof.
  cbv zeta. revert w.
  induction selections as [|selection selections IH]; intros w Ha.
  - split_and!; try reflexivity. by rewrite app_nil_r.
  - destruct (Part000_onSelection_step host contextEl selection w a Ha)
      as (w' & Hstep & Htrace & Hpoint & Hfields).
    assert (Ha' : adder (st w') = Some a) by congruence.
    assert (Hcreated : created (trace w') = created (trace w)).
    { rewrite Htrace, created_app. destruct (nonempty selection); apply app_nil_r. }
    destruct selection as [ranges event]. cbn [fst snd] in Hstep.
    cbn [fire_selections call_selection]. unfold bind. rewrite Hstep. cbv beta iota.
    destruct (IH w' Ha') as (Hres & Htr & Hcr & Hpt & Hfl).
    split_and!.
    + exact Hres.
    + rewrite Htr, Htrace. cbn [map]. by rewrite <- app_assoc.
    + by rewrite Hcr.
    + rewrite Hpt, Hpoint. reflexivity.
    + rewrite Hfl. exact Hfields.
Qed.

Lemma Part000_selections_only_move_the_adder_witness :
  let w1 := final (Part000.start sample_host ∅ sample_app (after_main [])) in
  let r := fire_selections sample_host (fn_onSelection_adder (VHost 0))
             [(sample_ranges, VHost 1); ([], VHost 2)] w1 in
  result r = Ret tt /\ created (trace (final r)) = [].
Proof.
  cbv zeta.
  destruct (Part000_selections_only_move_the_adder sample_host (VHost 0)
              [(sample_ranges, VHost 1); ([], VHost 2)]
              (final (Part000.start sample_host ∅ sample_app (after_main [])))
              {| adder_onCreate := fn_onCreate sample_app |})
    as (Hres & _ & Hcreated & _).
  - reflexivity.
  - split; [exact Hres|]. rewrite Hcreated. reflexivity.
Defined.

(** *** What [start] binds the collaborators to *)

(** X17: [main(options)] followed by [start(app)] binds the highlighter, the
    text selector and the viewer's [autoViewHighlights] to one and the same
    element: the [element] of the options when it is given and truthy, and
    [document.body] otherwise (no options, [null], a missing or a falsy
    [element]); the viewer gets the given [viewerExtensions], or the empty
    list. So in both copies. *)
Theorem start_binds_to_the_element host options w obj w0 app :
  UiMain.main host options w = (Ret obj, w0)
  \/ Part000.main host options w = (Ret obj, w0) ->
  let chosen k d :=
    match given options k with
    | Some v => if truthy v then v else d
    | None => d
    end in
  exists start h t v,
    member_of "start" obj = Some (method_app start)
    /\ result (start app w0) = Ret tt
    /\ highlighter (st (final (start app w0))) = Some h
    /\ textselector (st (final (start app w0))) = Some t
    /\ viewer (st (final (start app w0))) = Some v
    /\ highlighter_element h = chosen "element" (document_body host)
    /\ textselector_element t = chosen "element" (document_body host)
    /\ viewer_autoViewHighlights v = chosen "element" (document_body host)
    /\ viewer_extensions v = chosen "viewerExtensions" (VArr []).
Proof.
  intros Hmain chosen.
  assert (Hchosen : forall (o0 : jsobj) k d,
             or_else (prop o0 k) d
             = match o0 !! k with
               | Some v => if truthy v then v else d
               | None => d
               end).
  { intros o0 k d. unfold prop, or_else. by destruct (o0 !! k). }
  destruct Hmain as [Hmain | Hmain].
  - destruct (UiMain.main_options host options) as [o|e] eqn:Ho;
      [| rewrite (UiMain_main_throws _ _ _ _ Ho) in Hmain; discriminate].
    rewrite (UiMain_main_spec _ _ _ _ Ho) in Hmain. injection Hmain as <- <-.
    apply UiMain_main_options_inv in Ho as (o0 & Ho & Hgiven).
    rewrite UiMain_main_options_object in Ho. injection Ho as <-.
    do 4 eexists. split_and!; try reflexivity;
      cbn [highlighter_element textselector_element viewer_autoViewHighlights
           viewer_extensions];
      unfold prop at 1; subst chosen; cbv beta; rewrite Hgiven;
      repeat (rewrite lookup_insert_eq || rewrite lookup_insert_ne by discriminate);
      apply Hchosen.
  - destruct (Part000.main_options host options) as [o|e] eqn:Ho;
      [| rewrite (Part000_main_throws _ _ _ _ Ho) in Hmain; discriminate].
    rewrite (Part000_main_spec _ _ _ _ Ho) in Hmain. injection Hmain as <- <-.
    apply Part000_main_options_inv in Ho as (o0 & Ho & Hgiven).
    rewrite Part000_main_options_object in Ho. injection Ho as <-.
    do 4 eexists. split_and!; try reflexivity;
      cbn [highlighter_element textselector_element viewer_autoViewHighlights
           viewer_extensions];
      unfold prop at 1; subst chosen; cbv beta; rewrite Hgiven;
      repeat (rewrite lookup_insert_eq || rewrite lookup_insert_ne by discriminate);
      apply Hchosen.
Qed.

Lemma start_binds_to_the_element_witness :
  exists obj w0 start h,
    UiMain.main sample_host VUndef (after_main []) = (Ret obj, w0)
    /\ member_of "start" obj = Some (method_app start)
    /\ highlighter (st (final (start sample_app w0))) = Some h
    /\ highlighter_element h = VHost 0.
Proof.
  pose proof (UiMain_main_spec sample_host VUndef _ (after_main [])
                (UiMain_main_options_undefined sample_host)) as Hmain.
  destruct (start_binds_to_the_element sample_host VUndef (after_main []) _ _ sample_app
              (or_introl Hmain))
    as (start & h & t & v & Hstart & _ & Hh & _ & _ & Helement & _).
  do 2 eexists. exists start, h. split_and!; [exact Hmain | exact Hstart | exact Hh |].
  rewrite Helement. reflexivity.
Defined.

Lemma onEdit_moves_the_editor_to_the_viewer_witness :
  exists v,
    viewer (st (final (Part000.start sample_host ∅ sample_app (after_main [])))) = Some v
    /\ call_handler sample_host (viewer_onEdit v) (VObj ∅) (after_main [])
       = (Throw TypeError, after_main []).
Proof.
  destruct (onEdit_moves_the_editor_to_the_viewer sample_host ∅ sample_app [] (VObj ∅))
    as (v & e & Hv & _ & _ & _ & _ & Hthrow).
  exists v. split; [exact Hv | exact Hthrow].
Defined.
